(** * dataloader/dataset.py: the CelebAMask dataset adapter

    A shallow embedding of [CelebAMaskDataset] (construction, [__len__],
    [__getitem__], [_mask_labels], [preprocess]) and of the two transform
    classes of the file, followed by the properties proved about them.

    Modelling choices.
    - Python integers are [Z]; Python and numpy floats are IEEE-754 binary64
      and torch.float tensors are binary32, both through the Standard
      Library's [spec_float] operations ([SFmul 53 1024], [SFsub 24 128], ...).
    - A raised exception is the [Raise] branch of [outcome].
    - The file system, PIL, albumentations and the random generator are
      outside the file: they are the fields of the record [Externals].
    - [__getitem__] runs in a small monad that threads the dataset object
      (its attribute [unlabel_transform] is assigned lazily) and the random
      state, may raise, and logs the external calls it makes. *)

From Stdlib Require Import ZArith Lia SpecFloat Ascii String.
From stdpp Require Import gmap strings list.

Local Open Scope Z_scope.

(** ** Python outcomes *)

Inductive exn :=
  | PyException          (* [raise Exception()] *)
  | ZeroDivisionError
  | IndexError
  | FileNotFoundError
  | AttributeError
  | OverflowError
  | ValueError.

Inductive outcome (A : Type) :=
  | Return (a : A)
  | Raise (e : exn).
Arguments Return {A} a.
Arguments Raise {A} e.

Definition outcome_bind {A B} (m : outcome A) (f : A -> outcome B) : outcome B :=
  match m with
  | Return a => f a
  | Raise e => Raise e
  end.

Notation "'let?' x ':=' m 'in' k" := (outcome_bind m (fun x => k))
  (at level 10, x name, m at level 100, k at level 200).

(** [a % b] on Python integers: floored, the sign of the divisor. *)
Definition py_mod (a b : Z) : outcome Z :=
  if b =? 0 then Raise ZeroDivisionError else Return (a mod b).

(** [l[i]] on a Python list: a negative index counts from the end. *)
Definition py_list_getitem {A} (l : list A) (i : Z) : outcome A :=
  let n := Z.of_nat (length l) in
  let j := if i <? 0 then i + n else i in
  if (0 <=? j) && (j <? n) then
    match l !! Z.to_nat j with
    | Some x => Return x
    | None => Raise IndexError
    end
  else Raise IndexError.

(** [l[:b]] and [l[b:]] for [0 <= b]. *)
Definition slice_to {A} (l : list A) (b : Z) : list A := take (Z.to_nat b) l.
Definition slice_from {A} (l : list A) (b : Z) : list A := drop (Z.to_nat b) l.

(** ** IEEE-754 values *)

Definition binary64_of_int (n : Z) : spec_float := binary_normalize 53 1024 n 0 false.

(** [float(n)], as done implicitly by [n * x] for an int and a float. *)
Definition py_float_of_int (n : Z) : outcome spec_float :=
  match binary64_of_int n with
  | S754_infinity _ => Raise OverflowError
  | x => Return x
  end.

(** [int(x)]: truncation towards zero. *)
Definition py_int_of_float (x : spec_float) : outcome Z :=
  match x with
  | S754_zero _ => Return 0
  | S754_finite s m e =>
      let a := if 0 <=? e then Zpos m * 2 ^ e else Zpos m / 2 ^ (- e) in
      Return (if s then - a else a)
  | S754_infinity _ => Raise OverflowError
  | S754_nan => Raise ValueError
  end.

Definition py_int_mul_float (n : Z) (x : spec_float) : outcome spec_float :=
  let? f := py_float_of_int n in Return (SFmul 53 1024 f x).

(** The binary64 literals of the file: the decimal rounded to nearest. *)
Definition float_lit (num den : Z) : spec_float :=
  SFdiv 53 1024 (binary64_of_int num) (binary64_of_int den).

Definition float_0_8 : spec_float := Eval vm_compute in float_lit 8 10.
Definition float_0_5 : spec_float := Eval vm_compute in float_lit 5 10.
Definition float_0_1 : spec_float := Eval vm_compute in float_lit 1 10.
Definition float_0_2 : spec_float := Eval vm_compute in float_lit 2 10.
Definition float_0_0 : spec_float := S754_zero false.
Definition float_1_0 : spec_float := Eval vm_compute in binary64_of_int 1.

(** Conversion of a binary64 value to torch.float (binary32). *)
Definition f32_of_f64 (x : spec_float) : spec_float :=
  match x with
  | S754_finite s m e => binary_round 24 128 s m e
  | _ => x
  end.

Definition f32_of_int (n : Z) : spec_float := binary_normalize 24 128 n 0 false.

(** A tensor or float array with three axes. *)
Abbreviation tensor := (list (list (list spec_float))).

Definition map3 {A B} (f : A -> B) : list (list (list A)) -> list (list (list B)) :=
  map (map (map f)).

(** [torch.tensor(a, dtype=torch.float)] *)
Definition torch_tensor_float (a : tensor) : tensor := map3 f32_of_f64 a.

(** [t - c], [t / c], [t * c], [t + c] for a float32 tensor and a Python float. *)
Definition tensor_sub (t : tensor) (c : spec_float) : tensor :=
  map3 (fun x => SFsub 24 128 x (f32_of_f64 c)) t.
Definition tensor_div (t : tensor) (c : spec_float) : tensor :=
  map3 (fun x => SFdiv 24 128 x (f32_of_f64 c)) t.
Definition tensor_mul (t : tensor) (c : spec_float) : tensor :=
  map3 (fun x => SFmul 24 128 x (f32_of_f64 c)) t.
Definition tensor_add (t : tensor) (c : spec_float) : tensor :=
  map3 (fun x => SFadd 24 128 x (f32_of_f64 c)) t.

(** ** Strings and paths *)

(** [os.path.join(a, b)] on POSIX. *)
Definition path_join (a b : string) : string :=
  match b with
  | String "/"%char _ => b
  | _ =>
      if String.eqb a "" then b
      else match String.get (Nat.pred (String.length a)) a with
           | Some "/"%char => a +:+ b
           | _ => a +:+ "/" +:+ b
           end
  end.

(** [s.replace('.jpg', '')]: every occurrence found in one pass from the left
    is removed; the scan resumes after the removed occurrence. *)
Fixpoint replace_jpg (s : string) : string :=
  match s with
  | String "."%char (String "j"%char (String "p"%char (String "g"%char rest))) =>
      replace_jpg rest
  | String c rest => String c (replace_jpg rest)
  | EmptyString => EmptyString
  end.

(** ** numpy arrays *)

(** An array of shape (H, W) is the list of its H rows, and an array of shape
    (H, W, C) the list of its rows of pixels. *)
Abbreviation array2 := (list (list Z)).
Abbreviation array3 := (list (list (list Z))).

Definition shape0 {A} (a : list (list A)) : nat := length a.
Definition shape1 {A} (a : list (list A)) : nat :=
  match a with
  | [] => 0%nat
  | row :: _ => length row
  end.

(** [a] has shape (h, w). *)
Definition has_shape {A} (h w : nat) (a : list (list A)) : Prop :=
  length a = h /\ Forall (fun row => length row = w) a.

(** [np.zeros((c, h, w))] *)
Definition np_zeros (c h w : nat) : tensor :=
  replicate c (replicate h (replicate w float_0_0)).

(** [a == i] for an integer array and a scalar. *)
Definition np_eq (a : array2) (i : Z) : list (list bool) :=
  map (map (fun v => v =? i)) a.

(** [chan[cond] = v]: assignment through a boolean mask of the same shape. *)
Definition masked_assign (chan : list (list spec_float)) (cond : list (list bool))
    (v : spec_float) : list (list spec_float) :=
  zip_with (zip_with (fun x (b : bool) => if b then v else x)) chan cond.

(** [labels[i][cond] = v]; an index outside the first axis is an IndexError. *)
Definition setitem_masked (labels : tensor) (i : nat) (cond : list (list bool))
    (v : spec_float) : outcome tensor :=
  match labels !! i with
  | Some chan => Return (<[i := masked_assign chan cond v]> labels)
  | None => Raise IndexError
  end.

(** ** torchvision transforms used by [preprocess] *)

(** [transforms.ToTensor()] on the pixels of an 8-bit image of [nchan] bands:
    axes (H, W, C) become (C, H, W) and every byte is divided by 255 in
    float32. *)
Definition ToTensor (nchan : nat) (px : array3) : tensor :=
  map (fun c =>
         map (map (fun pixel : list Z =>
                     SFdiv 24 128 (f32_of_int (default 0 (pixel !! c))) (f32_of_int 255)))
             px)
      (seq 0 nchan).

(** [transforms.Normalize(mean, std)]: channel [c] becomes
    [(t[c] - mean[c]) / std[c]]. *)
Definition Normalize (mean std : list spec_float) (t : tensor) : tensor :=
  zip_with (fun chan (ms : spec_float * spec_float) =>
              map (map (fun x =>
                          SFdiv 24 128 (SFsub 24 128 x (f32_of_f64 (fst ms)))
                                (f32_of_f64 (snd ms))))
                  chan)
           t (zip mean std).

(** ** The world outside the file *)

(** The parameters of the pipeline built by [albumentations.Compose]. *)
Record aug_pipeline := {
  hflip_p : spec_float;
  shift_limit : spec_float;
  scale_limit : spec_float;
  rotate_limit : Z;
  border_mode : Z;
  border_value : Z;
  mask_value : Z;
  ssr_p : spec_float;
}.

Record Externals := {
  (** PIL image objects *)
  pil : Type;
  (** the state of the random generators *)
  rng : Type;
  (** [glob(pattern, recursive=True)] *)
  glob : string -> list string;
  (** [os.path.relpath(path, start)] *)
  relpath : string -> string -> string;
  (** [Image.open(path)]; [None] when the file cannot be opened. Which
      exception PIL raises then is not modelled: [open_image] below renders
      every failure as FileNotFoundError. *)
  Image_open : string -> option pil;
  (** [img.convert(mode)] and [img.resize((w, h), resample=r)], taken to
      return: their own failures (a size that is not positive, for one) are
      not modelled. *)
  convert : pil -> string -> pil;
  resize : pil -> Z * Z -> option Z -> pil;
  (** [np.array(img)] for an RGB and for an L image *)
  np_array_rgb : pil -> array3;
  np_array_l : pil -> array2;
  (** [Image.fromarray(a)] *)
  Image_fromarray : array3 -> pil;
  (** calling a composed albumentations pipeline on an image and a mask *)
  aug_call : aug_pipeline -> rng -> array3 -> array2 -> array3 * array2 * rng;
  (** [ImageOps.equalize(img)] and [transforms.functional.adjust_gamma] *)
  ImageOps_equalize : pil -> pil;
  adjust_gamma : pil -> spec_float -> pil;
}.

(** ** The classes of the file *)

Section Dataset.
Context (ext : Externals).

(** [HistogramEqualization.__call__] *)
Definition HistogramEqualization_call (img : pil ext) : pil ext :=
  let img_eq := ImageOps_equalize ext img in
  img_eq.

(** [AdjustGamma]: the object keeps [gamma]; the call applies it. *)
Record AdjustGamma := { gamma : spec_float }.

Definition AdjustGamma_init (gamma : spec_float) : AdjustGamma :=
  {| gamma := gamma |}.

Definition AdjustGamma_call (self : AdjustGamma) (img : pil ext) : pil ext :=
  let img_gamma := adjust_gamma ext img (gamma self) in
  img_gamma.

(** The attributes of a [CelebAMaskDataset] object. [latent_dir] is only
    assigned in labeled mode and [aug_t] only when [aug == True]: an
    attribute that was never assigned is [None] at the outer level. A
    caller-supplied [unlabel_transform] is taken to be a function of the
    image alone; a callable that raises or draws random numbers is not
    modelled. *)
Record Dataset := {
  args : gmap string Z;
  is_label : bool;
  latent_dir : option (option string);
  data_root : string;
  img_dir : string;
  idx_list : list string;
  label_dir : string;
  phase : string;
  color_map : gmap Z (list Z);
  data_size : Z;
  resolution : Z;
  aug : bool;
  aug_t : option aug_pipeline;
  unlabel_transform : option (pil ext -> tensor);
}.

Definition set_unlabel_transform (self : Dataset) (t : option (pil ext -> tensor))
    : Dataset :=
  {| args := args self; is_label := is_label self; latent_dir := latent_dir self;
     data_root := data_root self; img_dir := img_dir self;
     idx_list := idx_list self; label_dir := label_dir self; phase := phase self;
     color_map := color_map self; data_size := data_size self;
     resolution := resolution self; aug := aug self; aug_t := aug_t self;
     unlabel_transform := t |}.

(** The list comprehension of lines 66-67 and 84-85: every path found by
    the recursive glob, relative to [img_dir], with '.jpg' removed. *)
Definition scan_idx_list (img_dir : string) : list string :=
  map (fun f => replace_jpg (relpath ext f img_dir))
      (glob ext (path_join (path_join img_dir "**") "*.jpg")).

(** Lines 68-70: the border and the two slices. *)
Definition split_border (n : Z) : outcome Z :=
  let? f := py_int_mul_float n float_0_8 in py_int_of_float f.

Definition train_val_split (train_val_idx_list : list string)
    : outcome (list string * list string) :=
  let? border := split_border (Z.of_nat (length train_val_idx_list)) in
  let train_idx_list := slice_to train_val_idx_list border in
  let val_idx_list := slice_from train_val_idx_list border in
  Return (train_idx_list, val_idx_list).

Definition the_color_map : gmap Z (list Z) :=
  <[0 := [0; 0; 0]]> (<[1 := [0; 0; 205]]> (<[2 := [132; 112; 255]]>
  (<[3 := [25; 25; 112]]> (<[4 := [187; 255; 255]]> (<[5 := [102; 205; 170]]>
  (<[6 := [227; 207; 87]]> (<[7 := [142; 142; 56]]> ∅))))))).

Definition the_aug_pipeline : aug_pipeline :=
  {| hflip_p := float_0_5;
     shift_limit := float_0_1;
     scale_limit := float_0_2;
     rotate_limit := 15;
     border_mode := 0 (* cv2.BORDER_CONSTANT *);
     border_value := 0;
     mask_value := 0;
     ssr_p := float_0_5 |}.

(** [CelebAMaskDataset.__init__] *)
Definition __init__ (args : gmap string Z) (dataroot : string)
    (unlabel_transform : option (pil ext -> tensor)) (latent_dir : option string)
    (is_label : bool) (phase : string) (limit_size unlabel_limit_size : option Z)
    (aug : bool) (resolution : Z) : outcome Dataset :=
  let? part :=
    if is_label then
      let data_root := path_join dataroot "label_data" in
      let img_dir := path_join data_root "image" in
      let train_val_idx_list := scan_idx_list img_dir in
      let? split := train_val_split train_val_idx_list in
      let train_idx_list := fst split in
      let val_idx_list := snd split in
      let? idx_list :=
        if String.eqb phase "train" then Return train_idx_list
        else if String.eqb phase "val" then Return val_idx_list
        else if String.eqb phase "train-val" then Return train_val_idx_list
        else Raise PyException in
      Return (Some latent_dir, data_root, img_dir, idx_list)
    else
      let data_root := path_join dataroot "unlabel_data" in
      let img_dir := path_join data_root "image" in
      Return (None, data_root, img_dir, scan_idx_list img_dir) in
  let '(latent, data_root, img_dir, idx_list) := part in
  Return {| args := args;
            is_label := is_label;
            latent_dir := latent;
            data_root := data_root;
            img_dir := img_dir;
            idx_list := idx_list;
            label_dir := path_join data_root "label";
            phase := phase;
            color_map := the_color_map;
            data_size := Z.of_nat (length idx_list);
            resolution := resolution;
            aug := aug;
            aug_t := if aug then Some the_aug_pipeline else None;
            unlabel_transform := unlabel_transform |}.

(** [CelebAMaskDataset._mask_labels] *)
Definition _mask_labels (self : Dataset) (mask_np : array2) : outcome tensor :=
  let label_size := size (color_map self) in
  let labels := np_zeros label_size (shape0 mask_np) (shape1 mask_np) in
  foldl (fun acc i =>
           let? labels := acc in
           setitem_masked labels i (np_eq mask_np (Z.of_nat i)) float_1_0)
        (Return labels) (seq 0 label_size).

(** [CelebAMaskDataset.preprocess] (a static method) *)
Definition preprocess (img : pil ext) : tensor :=
  let img_tensor :=
    Normalize [float_0_5; float_0_5; float_0_5] [float_0_5; float_0_5; float_0_5]
              (ToTensor 3 (np_array_rgb ext img)) in
  img_tensor.

(** [CelebAMaskDataset.__len__]; reading an attribute that [args] lacks is
    an AttributeError. *)
Definition getattr_args (self : Dataset) (name : string) : outcome Z :=
  match args self !! name with
  | Some v => Return v
  | None => Raise AttributeError
  end.

Definition hasattr_args (self : Dataset) (name : string) : bool :=
  bool_decide (is_Some (args self !! name)).

Definition __len__ (self : Dataset) : outcome Z :=
  if negb (hasattr_args self "n_gpu") then Return (data_size self)
  else
    let? batch := getattr_args self "batch" in
    let? n_gpu := getattr_args self "n_gpu" in
    Return (Z.max (batch * n_gpu) (data_size self)).

(** *** The monad of [__getitem__] *)

Inductive event :=
  | EvOpen (path : string)   (* a call of [Image.open] *)
  | EvAugment.               (* a call of the pipeline [aug_t] *)

Record state := { st_self : Dataset; st_rng : rng ext }.

Definition M (A : Type) : Type := state -> outcome A * state * list event.

Definition ret {A} (a : A) : M A := fun st => (Return a, st, []).

Definition bind {A B} (m : M A) (f : A -> M B) : M B :=
  fun st =>
    match m st with
    | (Return a, st', ev) =>
        let '(r, st'', ev') := f a st' in (r, st'', ev ++ ev')
    | (Raise e, st', ev) => (Raise e, st', ev)
    end.

Definition lift {A} (o : outcome A) : M A := fun st => (o, st, []).

Definition get_self : M Dataset := fun st => (Return (st_self st), st, []).

Definition put_self (self : Dataset) : M unit :=
  fun st => (Return tt, {| st_self := self; st_rng := st_rng st |}, []).

Definition open_image (path : string) : M (pil ext) :=
  fun st =>
    (match Image_open ext path with
     | Some img => Return img
     | None => Raise FileNotFoundError
     end, st, [EvOpen path]).

Definition call_aug (t : aug_pipeline) (image : array3) (mask : array2)
    : M (array3 * array2) :=
  fun st =>
    let '(image', mask', g) := aug_call ext t (st_rng st) image mask in
    (Return (image', mask'), {| st_self := st_self st; st_rng := g |}, [EvAugment]).

(** The tensor of one mask: lines 165-168 and 173-176. *)
Definition encode_mask (self : Dataset) (mask_np : array2) : outcome tensor :=
  let? labels := _mask_labels self mask_np in
  let mask_tensor := torch_tensor_float labels in
  let mask_tensor := tensor_div (tensor_sub mask_tensor float_0_5) float_0_5 in
  Return mask_tensor.

(** Lines 149-150: an index at or beyond [data_size] is reduced modulo it. *)
Definition wrap_index (self : Dataset) (idx : Z) : outcome Z :=
  if data_size self <=? idx then py_mod idx (data_size self) else Return idx.

Notation "'let*' x ':=' m 'in' k" := (bind m (fun x => k))
  (at level 10, x name, m at level 100, k at level 200, only parsing).

(** [CelebAMaskDataset.__getitem__]; the result is the returned dict, as
    the list of its items. *)
Definition __getitem__ (idx : Z) : M (list (string * tensor)) :=
  let* self := get_self in
  let* idx := lift (wrap_index self idx) in
  let* img_idx := lift (py_list_getitem (idx_list self) idx) in
  let* img_pil := open_image (path_join (img_dir self) (img_idx +:+ ".jpg")) in
  let img_pil :=
    resize ext (convert ext img_pil "RGB") (resolution self, resolution self) None in
  if is_label self then
    let* mask_pil := open_image (path_join (label_dir self) (img_idx +:+ ".png")) in
    let mask_pil :=
      resize ext (convert ext mask_pil "L") (resolution self, resolution self)
             (Some 0) in
    if (String.eqb (phase self) "train" || String.eqb (phase self) "train-val")
       && aug self then
      let* t := lift (match aug_t self with
                      | Some t => Return t
                      | None => Raise AttributeError
                      end) in
      let* augmented := call_aug t (np_array_rgb ext img_pil) (np_array_l ext mask_pil) in
      let aug_img_pil := Image_fromarray ext (fst augmented) in
      let img_tensor := preprocess aug_img_pil in
      let mask_np := snd augmented in
      let* mask_tensor := lift (encode_mask self mask_np) in
      ret [("image"%string, img_tensor); ("mask"%string, mask_tensor)]
    else
      let img_tensor := preprocess img_pil in
      let mask_np := np_array_l ext mask_pil in
      let* mask_tensor := lift (encode_mask self mask_np) in
      ret [("image"%string, img_tensor); ("mask"%string, mask_tensor)]
  else
    let* transform := (match unlabel_transform self with
                       | None =>
                           let* _ := put_self (set_unlabel_transform self (Some preprocess)) in
                           ret preprocess
                       | Some t => ret t
                       end) in
    let img_tensor := transform img_pil in
    ret [("image"%string, img_tensor)].

End Dataset.

Arguments Build_Dataset {ext}.
Arguments args {ext} _.
Arguments is_label {ext} _.
Arguments latent_dir {ext} _.
Arguments data_root {ext} _.
Arguments img_dir {ext} _.
Arguments idx_list {ext} _.
Arguments label_dir {ext} _.
Arguments phase {ext} _.
Arguments color_map {ext} _.
Arguments data_size {ext} _.
Arguments resolution {ext} _.
Arguments aug {ext} _.
Arguments aug_t {ext} _.
Arguments unlabel_transform {ext} _.
Arguments st_self {ext} _.
Arguments st_rng {ext} _.
Arguments Build_state {ext}.

(** Reading one element of an array of two or three axes. *)
Definition at2 {A} (a : list (list A)) (y x : nat) : option A :=
  match a !! y with
  | Some row => row !! x
  | None => None
  end.

Definition at3 {A} (t : list (list (list A))) (c y x : nat) : option A :=
  match t !! c with
  | Some chan => at2 chan y x
  | None => None
  end.

(** The encoding as section 4.4 of the specification words it: channel [c] is
    1.0 where the label equals [c], else 0.0. The loop of [_mask_labels] is
    compared with it below. *)
Definition one_hot (n : nat) (mask_np : array2) : tensor :=
  map (fun c => map (map (fun v => if v =? Z.of_nat c then float_1_0 else float_0_0))
                    mask_np)
      (seq 0 n).

(** The inverse of the rescaling of line 168, as the specification gives it:
    [x * 0.5 + 0.5]. *)
Definition unscale (t : tensor) : tensor :=
  tensor_add (tensor_mul t float_0_5) float_0_5.

(** The image directories of lines 63-64 and 81-82. *)
Definition labeled_img_dir (dataroot : string) : string :=
  path_join (path_join dataroot "label_data") "image".
Definition unlabeled_img_dir (dataroot : string) : string :=
  path_join (path_join dataroot "unlabel_data") "image".

(** floor(0.8 * n), the border as the specification gives it. *)
Definition floor_0_8 (n : nat) : nat := Z.to_nat (4 * Z.of_nat n / 5).

(** The values of a one-hot array, and of a rescaled mask tensor. *)
Definition is_bit (x : spec_float) : Prop := x = float_0_0 \/ x = float_1_0.

Definition f32_one : spec_float := Eval vm_compute in f32_of_int 1.
Definition f32_minus_one : spec_float := Eval vm_compute in f32_of_int (-1).
Definition f32_zero : spec_float := S754_zero false.

Definition is_pm1 (x : spec_float) : Prop := x = f32_minus_one \/ x = f32_one.

(** What [preprocess] makes of one byte of the image, and the range
    [-1, 1] in float32. *)
Definition normalized_byte (v : Z) : spec_float :=
  SFdiv 24 128
    (SFsub 24 128 (SFdiv 24 128 (f32_of_int v) (f32_of_int 255)) (f32_of_f64 float_0_5))
    (f32_of_f64 float_0_5).

Definition in_unit_range (x : spec_float) : Prop :=
  SFleb f32_minus_one x = true /\ SFleb x f32_one = true.

(** The three phases the constructor recognizes. *)
Definition recognized (phase : string) : Prop :=
  phase = "train"%string \/ phase = "val"%string \/ phase = "train-val"%string.

(** The condition of line 158, under [if self.is_label]. *)
Definition augments {ext} (self : Dataset ext) : Prop :=
  is_label self = true /\
  (phase self = "train"%string \/ phase self = "train-val"%string) /\
  aug self = true.

(** The attribute [data_size] is the length of [idx_list]. *)
Definition sized {ext} (self : Dataset ext) : Prop :=
  data_size self = Z.of_nat (length (idx_list self)).

(** ** Small concrete worlds

    The main one has five labeled images 0.jpg .. 4.jpg of 2 x 2 pixels with
    their label files, two unlabeled images, and no other file. The stand-in
    for the augmentation pipeline mirrors image and mask. *)

Definition toy_files : list string :=
  ["data/label_data/image/0.jpg"; "data/label_data/image/1.jpg";
   "data/label_data/image/2.jpg"; "data/label_data/image/3.jpg";
   "data/label_data/image/4.jpg";
   "data/label_data/label/0.png"; "data/label_data/label/1.png";
   "data/label_data/label/2.png"; "data/label_data/label/3.png";
   "data/label_data/label/4.png";
   "data/unlabel_data/image/u0.jpg"; "data/unlabel_data/image/u1.jpg"]%string.

Definition toy_rgb : array3 := [[[0; 128; 255]; [10; 20; 30]]; [[255; 255; 255]; [0; 0; 0]]].
Definition toy_mask : array2 := [[0; 1]; [2; 7]].

Definition starts_with (p s : string) : bool :=
  String.eqb (String.substring 0 (String.length p) s) p.

(** The world that holds exactly the files of a list, each image being the
    same 2 x 2 picture. *)
Definition file_world (files : list string) : Externals :=
  {| pil := array3 * array2;
     rng := Z;
     glob := fun pattern =>
       if String.eqb pattern "data/label_data/image/**/*.jpg" then
         filter (fun f => starts_with "data/label_data/image/" f = true) files
       else if String.eqb pattern "data/unlabel_data/image/**/*.jpg" then
         filter (fun f => starts_with "data/unlabel_data/image/" f = true) files
       else [];
     relpath := fun path start =>
       String.substring (S (String.length start))
                        (String.length path - S (String.length start)) path;
     Image_open := fun path =>
       if bool_decide (path ∈ files) then Some (toy_rgb, toy_mask) else None;
     convert := fun img _ => img;
     resize := fun img _ _ => img;
     np_array_rgb := fst;
     np_array_l := snd;
     Image_fromarray := fun a => (a, []);
     aug_call := fun _ g image mask => (map (@rev _) image, map (@rev _) mask, g + 1);
     ImageOps_equalize := fun img => img;
     adjust_gamma := fun img _ => img |}.

Definition toy_ext : Externals := file_world toy_files.

(** The same world with an empty data root, and with a single labeled image. *)
Definition empty_ext : Externals := file_world [].

Definition one_ext : Externals :=
  file_world ["data/label_data/image/only.jpg"; "data/label_data/label/only.png"]%string.

Definition toy_dataset (is_label : bool) (phase : string) (aug : bool)
    : outcome (Dataset toy_ext) :=
  __init__ toy_ext ∅ "data" None None is_label phase None None aug 256.

Definition toy_state (self : Dataset toy_ext) : state toy_ext :=
  {| st_self := self; st_rng := 0 |}.

(** The objects the constructor builds in that world (see
    [toy_train_constructed] and its siblings below). *)
Definition toy_train : Dataset toy_ext :=
  {| args := ∅; is_label := true; latent_dir := Some None;
     data_root := "data/label_data"; img_dir := "data/label_data/image";
     idx_list := ["0"; "1"; "2"; "3"]%string;
     label_dir := "data/label_data/label"; phase := "train";
     color_map := the_color_map; data_size := 4; resolution := 256;
     aug := true; aug_t := Some the_aug_pipeline; unlabel_transform := None |}.

Definition toy_val : Dataset toy_ext :=
  {| args := ∅; is_label := true; latent_dir := Some None;
     data_root := "data/label_data"; img_dir := "data/label_data/image";
     idx_list := ["4"]%string;
     label_dir := "data/label_data/label"; phase := "val";
     color_map := the_color_map; data_size := 1; resolution := 256;
     aug := false; aug_t := None; unlabel_transform := None |}.

Definition toy_unlabeled : Dataset toy_ext :=
  {| args := ∅; is_label := false; latent_dir := None;
     data_root := "data/unlabel_data"; img_dir := "data/unlabel_data/image";
     idx_list := ["u0"; "u1"]%string;
     label_dir := "data/unlabel_data/label"; phase := "test";
     color_map := the_color_map; data_size := 2; resolution := 256;
     aug := false; aug_t := None; unlabel_transform := None |}.

Definition empty_dataset : Dataset empty_ext :=
  {| args := ∅; is_label := true; latent_dir := Some None;
     data_root := "data/label_data"; img_dir := "data/label_data/image";
     idx_list := [];
     label_dir := "data/label_data/label"; phase := "train";
     color_map := the_color_map; data_size := 0; resolution := 256;
     aug := false; aug_t := None; unlabel_transform := None |}.

Definition empty_padded : Dataset empty_ext :=
  {| args := <["batch"%string := 4]> (<["n_gpu"%string := 2]> ∅);
     is_label := true; latent_dir := Some None;
     data_root := "data/label_data"; img_dir := "data/label_data/image";
     idx_list := [];
     label_dir := "data/label_data/label"; phase := "train";
     color_map := the_color_map; data_size := 0; resolution := 256;
     aug := false; aug_t := None; unlabel_transform := None |}.

(** * Properties *)

(** ** The binary64 product behind the train/val border

    [binary_round_aux] is followed through its two shifts, which gives the
    product [n * 0.8] as the exact product rounded to 53 bits; below 2^50 the
    rounding never reaches the next integer, so truncation yields
    [4 * n / 5]. *)

Lemma digits2_pos_size p : digits2_pos p = Pos.size p.
Proof. induction p; simpl; congruence. Qed.

Lemma digits2_pos_bounds p :
  2 ^ (Zpos (digits2_pos p) - 1) <= Zpos p < 2 ^ Zpos (digits2_pos p).
Proof.
  rewrite digits2_pos_size. split.
  - pose proof (Pos.size_le p) as H.
    assert (Hp : (Z.pos (2 ^ Pos.size p) <= Z.pos p~0)) by exact H.
    rewrite Pos2Z.inj_pow in Hp.
    replace (Z.pos (Pos.size p)) with (Z.succ (Z.pos (Pos.size p) - 1)) in Hp by lia.
    rewrite Z.pow_succ_r in Hp by lia. lia.
  - pose proof (Pos.size_gt p) as H.
    assert (Hp : (Z.pos p < Z.pos (2 ^ Pos.size p))) by exact H.
    now rewrite Pos2Z.inj_pow in Hp.
Qed.

Lemma digits2_pos_unique p k :
  2 ^ (k - 1) <= Zpos p < 2 ^ k -> Zpos (digits2_pos p) = k.
Proof.
  intros [Hl Hu]. pose proof (digits2_pos_bounds p) as [Bl Bu].
  set (d := Zpos (digits2_pos p)) in *.
  assert (0 < d) by (unfold d; lia).
  assert (0 <= k).
  { destruct (Z.le_gt_cases 0 k); [done|]. rewrite Z.pow_neg_r in Hu; lia. }
  destruct (Z.lt_trichotomy d k) as [Hlt | [Heq | Hgt]]; [|done|].
  - assert (2 ^ d <= 2 ^ (k - 1)) by (apply Z.pow_le_mono_r; lia). lia.
  - assert (2 ^ k <= 2 ^ (d - 1)) by (apply Z.pow_le_mono_r; lia). lia.
Qed.

Lemma iter_pos_nat {A} (f : A -> A) p x :
  SpecFloat.iter_pos f p x = Nat.iter (Pos.to_nat p) f x.
Proof.
  revert x. induction p as [p IH | p IH |]; intros x; cbn [SpecFloat.iter_pos].
  - rewrite !IH. rewrite Pos2Nat.inj_xI.
    replace (S (2 * Pos.to_nat p))%nat with (Pos.to_nat p + S (Pos.to_nat p))%nat by lia.
    rewrite Nat.iter_add. now rewrite Nat.iter_succ_r.
  - rewrite !IH. rewrite Pos2Nat.inj_xO.
    replace (2 * Pos.to_nat p)%nat with (Pos.to_nat p + Pos.to_nat p)%nat by lia.
    now rewrite Nat.iter_add.
  - reflexivity.
Qed.

Lemma shr_1_spec m r s :
  0 <= m -> shr_m (shr_1 {| shr_m := m; shr_r := r; shr_s := s |}) = m / 2
         /\ shr_r (shr_1 {| shr_m := m; shr_r := r; shr_s := s |}) = Z.odd m.
Proof.
  intros Hm. destruct m as [|[p|p|]|p]; simpl; try lia; split; try reflexivity.
  - rewrite Pos2Z.inj_xI. apply Z.div_unique with 1; lia.
  - rewrite Pos2Z.inj_xO. apply Z.div_unique with 0; lia.
Qed.

Lemma shr_iter_spec m k :
  0 <= m ->
  shr_m (Nat.iter (S k) shr_1 {| shr_m := m; shr_r := false; shr_s := false |})
    = m / 2 ^ Z.of_nat (S k) /\
  shr_r (Nat.iter (S k) shr_1 {| shr_m := m; shr_r := false; shr_s := false |})
    = Z.testbit m (Z.of_nat k).
Proof.
  intros Hm. induction k as [|k IH].
  - change (Nat.iter 1 shr_1 ?x) with (shr_1 x).
    destruct (shr_1_spec m false false Hm) as [-> ->].
    rewrite Z.bit0_odd. split; [|done]. f_equal.
  - rewrite Nat.iter_succ.
    destruct (Nat.iter (S k) shr_1 _) as [m' r' s'] eqn:E. simpl in IH.
    destruct IH as [-> ->].
    assert (0 <= m / 2 ^ Z.of_nat (S k)) by (apply Z.div_pos; lia).
    destruct (shr_1_spec (m / 2 ^ Z.of_nat (S k)) (Z.testbit m (Z.of_nat k)) s') as [-> ->]; [done|].
    split.
    + rewrite Z.div_div by lia. f_equal.
      rewrite (Nat2Z.inj_succ (S k)), Z.pow_succ_r; lia.
    + rewrite Z.testbit_odd, Z.shiftr_div_pow2 by lia. repeat f_equal; lia.
Qed.

Lemma shr_spec m e n :
  0 <= m -> 0 < n ->
  exists s', shr {| shr_m := m; shr_r := false; shr_s := false |} e n
    = ({| shr_m := m / 2 ^ n; shr_r := Z.testbit m (n - 1); shr_s := s' |}, e + n).
Proof.
  intros Hm Hn. destruct n as [|p|p]; try lia.
  unfold shr. rewrite iter_pos_nat.
  destruct (Pos2Nat.is_succ p) as [k Hk]. rewrite Hk.
  destruct (shr_iter_spec m k Hm) as [H1 H2].
  destruct (Nat.iter (S k) shr_1 _) as [m' r' s'].
  simpl in H1, H2. subst m' r'. exists s'.
  replace (Z.pos p) with (Z.of_nat (S k)) by lia.
  repeat f_equal. lia.
Qed.

Lemma shr_nonpos mrs e n : n <= 0 -> shr mrs e n = (mrs, e).
Proof. intros Hn. destruct n; try reflexivity. lia. Qed.

Lemma round_nearest_even_bounds q r s :
  let q' := round_nearest_even q
              (loc_of_shr_record {| shr_m := q; shr_r := r; shr_s := s |}) in
  q <= q' <= q + 1 /\ (q' = q + 1 -> r = true).
Proof.
  destruct r, s; simpl; try destruct (Z.even q); split; intros; try lia; done.
Qed.

Lemma fexp_normal e : -1074 <= e - 53 -> fexp 53 1024 e = e - 53.
Proof. intros H. unfold fexp, emin. lia. Qed.

Lemma binary_round_aux_53 sx p ex :
  -1074 <= Zpos (digits2_pos p) + ex - 53 ->
  ex + Z.max 0 (Zpos (digits2_pos p) - 53) < 971 ->
  exists m'' e'',
    binary_round_aux 53 1024 sx (Zpos p) ex loc_Exact = S754_finite sx m'' e'' /\
    if Zpos (digits2_pos p) <=? 53 then m'' = p /\ e'' = ex
    else exists q',
      Zpos p / 2 ^ (Zpos (digits2_pos p) - 53) <= q'
        <= Zpos p / 2 ^ (Zpos (digits2_pos p) - 53) + 1 /\
      (q' = Zpos p / 2 ^ (Zpos (digits2_pos p) - 53) + 1 ->
         Z.testbit (Zpos p) (Zpos (digits2_pos p) - 53 - 1) = true) /\
      ex + (Zpos (digits2_pos p) - 53) <= e''
        <= ex + (Zpos (digits2_pos p) - 53) + 1 /\
      Zpos m'' * 2 ^ (e'' - (ex + (Zpos (digits2_pos p) - 53))) = q'.
Proof.
  intros Hlo Hhi. pose proof (digits2_pos_bounds p) as [Bl Bu].
  set (D := Zpos (digits2_pos p)) in *.
  unfold binary_round_aux, shr_fexp.
  change (Zdigits2 (Z.pos p)) with D.
  rewrite (fexp_normal (D + ex)) by lia.
  replace (D + ex - 53 - ex) with (D - 53) by lia.
  destruct (Z.leb_spec D 53) as [Hle | Hgt].
  - rewrite shr_nonpos by lia. cbn [shr_record_of_loc loc_of_shr_record shr_m shr_r shr_s round_nearest_even].
    change (Zdigits2 (Z.pos p)) with D.
    rewrite (fexp_normal (D + ex)) by lia.
    rewrite shr_nonpos by lia. cbn [shr_m].
    destruct (Z.leb_spec ex (1024 - 53)); [|lia]. eauto.
  - cbn [shr_record_of_loc].
    destruct (shr_spec (Zpos p) ex (D - 53)) as [s' ->]; [lia | lia |].
    set (q := Z.pos p / 2 ^ (D - 53)).
    cbn [shr_m].
    pose proof (round_nearest_even_bounds q (Z.testbit (Z.pos p) (D - 53 - 1)) s') as [Hq Hr].
    set (q' := round_nearest_even q _) in *.
    assert (Hq52 : 2 ^ 52 <= q).
    { unfold q. apply Z.div_le_lower_bound; [lia|].
      rewrite <- Z.pow_add_r by lia. replace (D - 53 + 52) with (D - 1) by lia. done. }
    assert (Hq53 : q < 2 ^ 53).
    { unfold q. apply Z.div_lt_upper_bound; [lia|].
      rewrite <- Z.pow_add_r by lia. replace (D - 53 + 53) with D by lia. done. }
    destruct q' as [|pq|pq] eqn:Eq'; try lia.
    destruct (Z.eq_dec (Zpos pq) (2 ^ 53)) as [Hc | Hnc].
    + assert (Hd : Zpos (digits2_pos pq) = 54) by (apply digits2_pos_unique; lia).
      cbn [Zdigits2]. rewrite Hd.
      rewrite (fexp_normal (54 + (ex + (D - 53)))) by lia.
      replace (54 + (ex + (D - 53)) - 53 - (ex + (D - 53))) with 1 by lia.
      destruct (shr_spec (Zpos pq) (ex + (D - 53)) 1) as [s'' ->]; [lia | lia |].
      cbn [shr_m]. rewrite Hc. change (2 ^ 53 / 2 ^ 1) with (Zpos (2 ^ 52)).
      cbv iota beta.
      destruct (Z.leb_spec (ex + (D - 53) + 1) (1024 - 53)); [|lia].
      eexists _, _. split; [reflexivity|]. exists (Zpos pq).
      split; [lia|]. split; [intros; apply Hr; lia|]. split; [lia|].
      replace (ex + (D - 53) + 1 - (ex + (D - 53))) with 1 by lia. rewrite Hc. reflexivity.
    + assert (Hd : Zpos (digits2_pos pq) = 53) by (apply digits2_pos_unique; lia).
      cbn [Zdigits2]. rewrite Hd.
      rewrite (fexp_normal (53 + (ex + (D - 53)))) by lia.
      rewrite shr_nonpos by lia. cbn [shr_m].
      destruct (Z.leb_spec (ex + (D - 53)) (1024 - 53)); [|lia].
      eexists _, _. split; [reflexivity|]. exists (Zpos pq).
      split; [lia|]. split; [intros; apply Hr; lia|]. split; [lia|].
      rewrite Z.sub_diag. lia.
Qed.

Lemma pos_iter_xO p k : Zpos (Pos.iter xO p k) = Zpos p * 2 ^ Zpos k.
Proof.
  rewrite (Pos.iter_swap_gen _ _ Zpos xO (Z.mul 2)) by reflexivity.
  change (Pos.iter (Z.mul 2) (Z.pos p) k) with (Z.shiftl (Zpos p) (Zpos k)).
  apply Z.shiftl_mul_pow2. lia.
Qed.

Lemma binary64_of_int_small pn :
  Zpos pn < 2 ^ 53 ->
  exists mz, binary64_of_int (Zpos pn) = S754_finite false mz (Zpos (digits2_pos pn) - 53)
    /\ Zpos mz = Zpos pn * 2 ^ (53 - Zpos (digits2_pos pn)).
Proof.
  intros Hn. pose proof (digits2_pos_bounds pn) as [Bl Bu].
  set (d := Zpos (digits2_pos pn)) in *.
  assert (Hd : 1 <= d <= 53).
  { split; [unfold d; lia|].
    destruct (Z.le_gt_cases d 53); [done|].
    assert (2 ^ 53 <= 2 ^ (d - 1)) by (apply Z.pow_le_mono_r; lia). lia. }
  unfold binary64_of_int, binary_normalize, binary_round.
  change (Z.pos (digits2_pos pn)) with d.
  rewrite (fexp_normal (d + 0)) by lia.
  assert (Hal : exists mz, shl_align pn 0 (d + 0 - 53) = (mz, d - 53)
                 /\ Zpos mz = Zpos pn * 2 ^ (53 - d)).
  { unfold shl_align. destruct (d + 0 - 53 - 0) as [|k|k] eqn:E; try lia.
    - exists pn. replace (d - 53) with 0 by lia. replace (53 - d) with 0 by lia.
      split; [done | lia].
    - exists (Pos.iter xO pn k). split; [f_equal; lia|].
      rewrite pos_iter_xO. f_equal. f_equal. lia. }
  destruct Hal as (mz & -> & Hmz). exists mz. split; [|done].
  assert (Hdz : Zpos (digits2_pos mz) = 53).
  { assert (0 < 2 ^ (53 - d)) by (apply Z.pow_pos_nonneg; lia).
    assert (E1 : 2 ^ (53 - 1) = 2 ^ (d - 1) * 2 ^ (53 - d))
      by (rewrite <- Z.pow_add_r by lia; f_equal; lia).
    assert (E2 : 2 ^ 53 = 2 ^ d * 2 ^ (53 - d))
      by (rewrite <- Z.pow_add_r by lia; f_equal; lia).
    apply digits2_pos_unique. rewrite Hmz, E1, E2. split.
    - apply Z.mul_le_mono_nonneg_r; lia.
    - apply Z.mul_lt_mono_pos_r; lia. }
  destruct (binary_round_aux_53 false mz (d - 53)) as (m'' & e'' & -> & H); [lia | lia |].
  rewrite Hdz in H. change (53 <=? 53) with true in H. destruct H as [-> ->]. done.
Qed.

Lemma testbit_true_mod_lower a n :
  0 < n -> Z.testbit a (n - 1) = true -> 2 ^ (n - 1) <= a mod 2 ^ n.
Proof.
  intros Hn Hb. apply Z.testbit_true in Hb; [|lia].
  assert (E : 2 ^ n = 2 ^ (n - 1) * 2).
  { rewrite Z.mul_comm, <- Z.pow_succ_r by lia. f_equal. lia. }
  rewrite E, Z.rem_mul_r by lia. rewrite Hb.
  pose proof (Z.mod_pos_bound a (2 ^ (n - 1))). lia.
Qed.


Lemma split_border_exact n :
  0 <= n < 2 ^ 50 -> split_border n = Return (4 * n / 5).
Proof.
  intros [Hn0 Hn50]. destruct n as [|pn|pn]; [reflexivity| |lia].
  unfold split_border, py_int_mul_float, py_float_of_int, outcome_bind.
  destruct (binary64_of_int_small pn) as (mz & -> & Hmz); [lia|].
  pose proof (digits2_pos_bounds pn) as [Bl Bu].
  set (d := Zpos (digits2_pos pn)) in *. set (n := Zpos pn) in *.
  assert (Hd : 1 <= d <= 50).
  { split; [unfold d; lia|]. destruct (Z.le_gt_cases d 50); [done|].
    assert (2 ^ 50 <= 2 ^ (d - 1)) by (apply Z.pow_le_mono_r; lia). lia. }
  set (A := 2 ^ (53 - d)) in *.
  assert (HA : 0 < A) by (apply Z.pow_pos_nonneg; lia).
  assert (Hmz52 : 2 ^ 52 <= Zpos mz < 2 ^ 53).
  { assert (E1 : 2 ^ 52 = 2 ^ (d - 1) * A)
      by (unfold A; rewrite <- Z.pow_add_r by lia; f_equal; lia).
    assert (E2 : 2 ^ 53 = 2 ^ d * A)
      by (unfold A; rewrite <- Z.pow_add_r by lia; f_equal; lia).
    rewrite Hmz, E1, E2. split; [apply Z.mul_le_mono_nonneg_r | apply Z.mul_lt_mono_pos_r]; lia. }
  cbn [SFmul float_0_8 xorb].
  set (m08 := 7205759403792794%positive).
  set (pP := (mz * m08)%positive).
  assert (HP : Zpos pP = n * A * Zpos m08) by (unfold pP; rewrite Pos2Z.inj_mul; lia).
  pose proof (digits2_pos_bounds pP) as [PBl PBu].
  set (D := Zpos (digits2_pos pP)) in *.
  assert (HD : 105 <= D <= 106).
  { assert (2 ^ 104 <= Zpos pP < 2 ^ 106).
    { unfold pP. rewrite Pos2Z.inj_mul. split.
      - change (2 ^ 104) with (2 ^ 52 * 2 ^ 52). apply Z.mul_le_mono_nonneg; lia.
      - change (2 ^ 106) with (2 ^ 53 * 2 ^ 53). apply Z.mul_lt_mono_nonneg; lia. }
    split.
    - destruct (Z.le_gt_cases 105 D); [done|].
      assert (2 ^ D <= 2 ^ 104) by (apply Z.pow_le_mono_r; lia). lia.
    - destruct (Z.le_gt_cases D 106); [done|].
      assert (2 ^ 106 <= 2 ^ (D - 1)) by (apply Z.pow_le_mono_r; lia). lia. }
  destruct (binary_round_aux_53 false pP (d - 53 + -53)) as (m'' & e'' & -> & H).
  { fold D. lia. }
  { fold D. lia. }
  fold D in H. destruct (Z.leb_spec D 53) as [?|_]; [lia|].
  destruct H as (q' & Hq & Hr & He & Hm).
  set (sh := D - 53) in *.
  set (e0 := d - 53 + -53 + sh) in *.
  cbn [py_int_of_float].
  destruct (Z.leb_spec 0 e'') as [?|_]; [lia|]. f_equal.
  (* the truncated quotient does not depend on the final normalisation *)
  set (T := 2 ^ (- e0)).
  assert (HT : 0 < T) by (apply Z.pow_pos_nonneg; lia).
  assert (Ht : 0 < 2 ^ (e'' - e0)) by (apply Z.pow_pos_nonneg; lia).
  assert (ET : 2 ^ (- e'') * 2 ^ (e'' - e0) = T)
    by (unfold T; rewrite <- Z.pow_add_r by lia; f_equal; lia).
  rewrite <- (Z.div_mul_cancel_r (Zpos m'') (2 ^ (- e'')) (2 ^ (e'' - e0))) by lia.
  rewrite Hm, ET.
  (* bounds on the exact product *)
  set (S := 2 ^ sh) in *.
  assert (HS : 0 < S) by (apply Z.pow_pos_nonneg; lia).
  assert (HTS : T * S = 2 ^ 53 * A).
  { unfold T, S, A. rewrite <- !Z.pow_add_r by lia. f_equal. lia. }
  pose proof (Z.div_mod (4 * n) 5 ltac:(lia)) as Hk.
  pose proof (Z.mod_pos_bound (4 * n) 5 ltac:(lia)) as Hr0.
  set (k := 4 * n / 5) in *. set (r0 := (4 * n) mod 5) in *.
  unfold m08 in HP.
  set (P := n * A * 7205759403792794) in *.
  assert (Hlow : k * 2 ^ 53 <= n * 7205759403792794) by lia.
  assert (Hupp : n * 7205759403792794 < (k + 1) * 2 ^ 53) by lia.
  pose proof (Z.div_mod P S ltac:(lia)) as Hq0.
  pose proof (Z.mod_pos_bound P S HS) as Hrem.
  rewrite HP in Hq, Hr, PBl.
  set (q := P / S) in *. set (rem := P mod S) in *.
  assert (Hk0 : 0 <= k) by (unfold k; apply Z.div_pos; lia).
  assert (HlowP : k * (T * S) <= P).
  { rewrite HTS. apply (Z.mul_le_mono_nonneg_r _ _ A) in Hlow; lia. }
  assert (HuppP : P < (k + 1) * (T * S)).
  { rewrite HTS. apply (Z.mul_lt_mono_pos_r A) in Hupp; lia. }
  assert (Hq1 : k * T <= q).
  { assert (k * T < q + 1); [|lia]. apply (Z.mul_lt_mono_pos_r S); lia. }
  assert (Hq2 : q < (k + 1) * T).
  { apply (Z.mul_lt_mono_pos_r S); lia. }
  symmetry. apply Z.div_unique_pos with (q' - k * T); [|lia].
  split; [lia|].
  destruct (Z.eq_dec q' (q + 1)) as [Heq | Hne]; [|lia].
  destruct (Z.eq_dec (q + 1) ((k + 1) * T)) as [Hedge | Hin]; [exfalso | lia].
  specialize (Hr Heq). apply testbit_true_mod_lower in Hr; [|lia].
  fold S rem in Hr. set (H2 := 2 ^ (sh - 1)) in *.
  assert (ES : S = 2 * H2).
  { unfold S, H2. rewrite <- Z.pow_succ_r by lia. f_equal. lia. }
  assert (EH : H2 * 2 ^ 53 = 2 ^ (D - 1)).
  { unfold H2. rewrite <- Z.pow_add_r by lia. f_equal. lia. }
  (* half an ulp of the product is below 2^50 * A ... *)
  assert (HH : H2 < 2 ^ 50 * A).
  { assert (Hnm : n * 7205759403792794 < 2 ^ 50 * 2 ^ 53)
      by (apply Z.mul_lt_mono_nonneg; lia).
    apply (Z.mul_lt_mono_pos_r A) in Hnm; [|lia].
    apply (Z.mul_lt_mono_pos_r (2 ^ 53)); lia. }
  (* ... while rounding up to the next integer needs the product within it *)
  set (X := (k + 1) * 2 ^ 53 - n * 7205759403792794) in *.
  assert (HX : A * X <= H2).
  { assert (E : A * X = (k + 1) * T * S - P) by (unfold X, P; lia).
    rewrite E, <- Hedge. lia. }
  assert (H5X : 2 ^ 53 - 2 ^ 51 <= 5 * X) by (unfold X; lia).
  apply (Z.mul_le_mono_nonneg_l _ _ A) in H5X; lia.
Qed.

(** ** Construction: the split and the phase *)

Lemma train_val_split_exact (l : list string) :
  Z.of_nat (length l) < 2 ^ 50 ->
  train_val_split l
  = Return (take (floor_0_8 (length l)) l, drop (floor_0_8 (length l)) l).
Proof.
  intros Hn. unfold train_val_split.
  rewrite split_border_exact by lia. reflexivity.
Qed.

Lemma floor_0_8_le (n : nat) : (floor_0_8 n <= n)%nat.
Proof.
  unfold floor_0_8.
  assert (4 * Z.of_nat n / 5 <= Z.of_nat n)
    by (apply Z.div_le_upper_bound; lia).
  lia.
Qed.

Lemma recognized_dec (phase : string) :
  recognized phase <->
  (String.eqb phase "train" || String.eqb phase "val"
   || String.eqb phase "train-val") = true.
Proof.
  unfold recognized. rewrite !orb_true_iff, !String.eqb_eq. tauto.
Qed.

(** What the labeled branch of the constructor returns once the split is
    known. *)
Lemma init_labeled ext args0 dataroot ut ld phase0 ls uls aug0 res train val :
  train_val_split (scan_idx_list ext (labeled_img_dir dataroot)) = Return (train, val) ->
  __init__ ext args0 dataroot ut ld true phase0 ls uls aug0 res
  = if String.eqb phase0 "train" || String.eqb phase0 "val"
       || String.eqb phase0 "train-val"
    then
      let l := if String.eqb phase0 "train" then train
               else if String.eqb phase0 "val" then val
               else scan_idx_list ext (labeled_img_dir dataroot) in
      Return {| args := args0; is_label := true; latent_dir := Some ld;
                data_root := path_join dataroot "label_data";
                img_dir := labeled_img_dir dataroot;
                idx_list := l;
                label_dir := path_join (path_join dataroot "label_data") "label";
                phase := phase0; color_map := the_color_map;
                data_size := Z.of_nat (length l); resolution := res;
                aug := aug0;
                aug_t := if aug0 then Some the_aug_pipeline else None;
                unlabel_transform := ut |}
    else Raise PyException.
Proof.
  intros Hs. unfold __init__. fold (labeled_img_dir dataroot). rewrite Hs.
  cbn [outcome_bind fst snd].
  destruct (String.eqb phase0 "train"); [reflexivity|].
  destruct (String.eqb phase0 "val"); [reflexivity|].
  destruct (String.eqb phase0 "train-val"); reflexivity.
Qed.

Lemma init_unlabeled ext args0 dataroot ut ld phase0 ls uls aug0 res :
  __init__ ext args0 dataroot ut ld false phase0 ls uls aug0 res
  = Return {| args := args0; is_label := false; latent_dir := None;
              data_root := path_join dataroot "unlabel_data";
              img_dir := unlabeled_img_dir dataroot;
              idx_list := scan_idx_list ext (unlabeled_img_dir dataroot);
              label_dir := path_join (path_join dataroot "unlabel_data") "label";
              phase := phase0; color_map := the_color_map;
              data_size :=
                Z.of_nat (length (scan_idx_list ext (unlabeled_img_dir dataroot)));
              resolution := res; aug := aug0;
              aug_t := if aug0 then Some the_aug_pipeline else None;
              unlabel_transform := ut |}.
Proof. reflexivity. Qed.

(** A mismatch between the computed border and floor(0.8 n) at one length
    refutes the split equation on a list of that length. *)
Lemma split_mismatch (n b : Z) :
  0 <= n -> split_border n = Return b -> 0 <= b <= n -> b <> 4 * n / 5 ->
  0 <= 4 * n / 5 <= n ->
  train_val_split (replicate (Z.to_nat n) ""%string)
  <> Return (take (floor_0_8 (length (replicate (Z.to_nat n) ""%string)))
                  (replicate (Z.to_nat n) ""%string),
             drop (floor_0_8 (length (replicate (Z.to_nat n) ""%string)))
                  (replicate (Z.to_nat n) ""%string)).
Proof.
  intros Hn Hb Hbn Hne Hfl. generalize (Z.to_nat n) (Z2Nat.id n Hn).
  intros k Hk. unfold train_val_split. rewrite length_replicate, Hk, Hb.
  cbn [outcome_bind]. intros H. injection H as Ht _.
  apply (f_equal length) in Ht. unfold slice_to, floor_0_8 in Ht.
  rewrite !length_take, length_replicate, Hk in Ht. lia.
Qed.

(** Remark on the bound 2^50 of [train_val_split_exact]: far beyond it the
    binary64 product [len * 0.8] can be rounded up to the next integer, as at
    1688850083938651, which is why the statements on the split carry the
    bound. No list of such a length fits in a process, so the remark bears on
    no input the constructor can receive. *)
Lemma split_border_rounds_up :
  ~ (forall full : list string,
       train_val_split full
       = Return (take (floor_0_8 (length full)) full,
                 drop (floor_0_8 (length full)) full)).
Proof.
  intros H.
  apply (split_mismatch 1688850083938651 1351080067150921);
    [lia | vm_compute; reflexivity | lia | vm_compute; discriminate
    | vm_compute; split; discriminate | apply H].
Qed.

(** C1: in labeled mode, for every list of N discovered identifiers (N below
    2^50, as every list a process can hold), the train split is the first
    floor(0.8 N) elements of the full list, the val split is the rest, phase
    'train-val' keeps the full list, train followed by val is the full list,
    and their lengths add up to N; nothing is shuffled. *)
Theorem train_val_split_80_20 ext args0 dataroot ut ld ls uls aug0 res full :
  full = scan_idx_list ext (labeled_img_dir dataroot) ->
  Z.of_nat (length full) < 2 ^ 50 ->
  train_val_split full
    = Return (take (floor_0_8 (length full)) full,
              drop (floor_0_8 (length full)) full) /\
  (exists ds, __init__ ext args0 dataroot ut ld true "train" ls uls aug0 res = Return ds
              /\ idx_list ds = take (floor_0_8 (length full)) full) /\
  (exists ds, __init__ ext args0 dataroot ut ld true "val" ls uls aug0 res = Return ds
              /\ idx_list ds = drop (floor_0_8 (length full)) full) /\
  (exists ds, __init__ ext args0 dataroot ut ld true "train-val" ls uls aug0 res = Return ds
              /\ idx_list ds = full) /\
  take (floor_0_8 (length full)) full ++ drop (floor_0_8 (length full)) full = full /\
  (length (take (floor_0_8 (length full)) full)
   + length (drop (floor_0_8 (length full)) full) = length full)%nat.
Proof.
  intros -> Hn.
  pose proof (train_val_split_exact _ Hn) as Hs.
  split; [exact Hs|].
  repeat split.
  - eexists. rewrite (init_labeled _ _ _ _ _ _ _ _ _ _ _ _ Hs). split; reflexivity.
  - eexists. rewrite (init_labeled _ _ _ _ _ _ _ _ _ _ _ _ Hs). split; reflexivity.
  - eexists. rewrite (init_labeled _ _ _ _ _ _ _ _ _ _ _ _ Hs). split; reflexivity.
  - apply take_drop.
  - rewrite <- length_app, take_drop. reflexivity.
Qed.

(** C7, as stated, fails: in unlabeled mode the phase 'test' is accepted. *)
Lemma unlabeled_phase_unchecked :
  ~ (forall ext args0 dataroot ut ld is_label0 phase0 ls uls aug0 res,
       __init__ ext args0 dataroot ut ld is_label0 phase0 ls uls aug0 res
         = Raise PyException
       <-> ~ recognized phase0).
Proof.
  intros H.
  destruct (H toy_ext ∅ "data"%string None None false "test"%string None None false 256)
    as [_ H2].
  assert (Hbad : ~ recognized "test").
  { rewrite recognized_dec. vm_compute. discriminate. }
  specialize (H2 Hbad). rewrite init_unlabeled in H2. discriminate.
Qed.

Lemma split_border_never_generic (n : Z) (e : exn) :
  split_border n = Raise e -> e <> PyException.
Proof.
  unfold split_border, py_int_mul_float, py_float_of_int, outcome_bind.
  destruct (binary64_of_int n) as [s| s | |s m x]; cbn;
    try (intros [= <-]; discriminate).
  all: match goal with
       | |- context [py_int_of_float ?f] =>
           destruct (py_int_of_float f) as [z|e'] eqn:Hi; [discriminate|];
           unfold py_int_of_float in Hi;
           destruct f; try discriminate; injection Hi as <-;
           intros [= <-]; discriminate
       end.
Qed.

Lemma train_val_split_returns (l : list string) (b : Z) :
  split_border (Z.of_nat (length l)) = Return b ->
  train_val_split l = Return (slice_to l b, slice_from l b).
Proof. intros Hb. unfold train_val_split. now rewrite Hb. Qed.

Lemma train_val_split_raises (l : list string) (e : exn) :
  train_val_split l = Raise e -> e <> PyException.
Proof.
  unfold train_val_split.
  destruct (split_border (Z.of_nat (length l))) as [b|e'] eqn:Hb; [discriminate|].
  intros [= <-]. eapply split_border_never_generic, Hb.
Qed.

(** In labeled mode a failure of the split is the failure of the
    constructor. *)
Lemma init_labeled_split_raises ext args0 dataroot ut ld phase0 ls uls aug0 res e :
  train_val_split (scan_idx_list ext (labeled_img_dir dataroot)) = Raise e ->
  __init__ ext args0 dataroot ut ld true phase0 ls uls aug0 res = Raise e.
Proof.
  intros Hs. unfold __init__. fold (labeled_img_dir dataroot). now rewrite Hs.
Qed.

(** C7 (amended): in labeled mode construction raises the generic
    [Exception] only for a phase that is not one of 'train', 'val',
    'train-val', never returns with such a phase, and, the border of line 68
    once computed, raises it for every such phase and succeeds with a
    recognized one; in unlabeled mode the phase is not checked and
    construction succeeds whatever it is. *)
Theorem labeled_phase_validated ext args0 dataroot ut ld phase0 ls uls aug0 res :
  (__init__ ext args0 dataroot ut ld true phase0 ls uls aug0 res = Raise PyException ->
   ~ recognized phase0) /\
  (~ recognized phase0 ->
   exists e, __init__ ext args0 dataroot ut ld true phase0 ls uls aug0 res = Raise e) /\
  (forall border,
     split_border (Z.of_nat (length (scan_idx_list ext (labeled_img_dir dataroot))))
       = Return border ->
     (__init__ ext args0 dataroot ut ld true phase0 ls uls aug0 res = Raise PyException
      <-> ~ recognized phase0) /\
     (recognized phase0 ->
      exists ds,
        __init__ ext args0 dataroot ut ld true phase0 ls uls aug0 res = Return ds)) /\
  (exists ds, __init__ ext args0 dataroot ut ld false phase0 ls uls aug0 res = Return ds).
Proof.
  pose proof (recognized_dec phase0) as Hrec.
  assert (Hret : forall tr va,
            train_val_split (scan_idx_list ext (labeled_img_dir dataroot))
              = Return (tr, va) ->
            (__init__ ext args0 dataroot ut ld true phase0 ls uls aug0 res
               = Raise PyException <-> ~ recognized phase0) /\
            (recognized phase0 ->
             exists ds,
               __init__ ext args0 dataroot ut ld true phase0 ls uls aug0 res
                 = Return ds)).
  { intros tr va Hs. rewrite (init_labeled _ _ _ _ _ _ _ _ _ _ _ _ Hs), Hrec.
    destruct (String.eqb phase0 "train" || String.eqb phase0 "val"
              || String.eqb phase0 "train-val").
    - split; [split; [discriminate | intros H; now elim H] | eauto].
    - split; [split; [discriminate | reflexivity] | discriminate]. }
  destruct (train_val_split (scan_idx_list ext (labeled_img_dir dataroot)))
    as [[tr va]|e] eqn:Hs.
  - destruct (Hret tr va eq_refl) as [Hiff Hok].
    split; [apply Hiff|]. split; [intros Hno; exists PyException; now apply Hiff|].
    split; [intros border _; split; assumption|].
    rewrite init_unlabeled. eauto.
  - rewrite (init_labeled_split_raises _ _ _ _ _ _ _ _ _ _ _ Hs).
    split; [intros [= ->]; now elim (train_val_split_raises _ _ Hs)|].
    split; [eauto|].
    split; [|rewrite init_unlabeled; eauto].
    intros border Hb. rewrite (train_val_split_returns _ _ Hb) in Hs. discriminate.
Qed.

(** C9: in unlabeled mode the constructor returns, whatever the phase, an
    object whose identifier list is the full scan of unlabel_data/image; the
    phase is stored as given and never compared with the recognized values. *)
Theorem unlabeled_full_scan ext args0 dataroot ut ld phase0 ls uls aug0 res :
  exists ds,
    __init__ ext args0 dataroot ut ld false phase0 ls uls aug0 res = Return ds /\
    idx_list ds = scan_idx_list ext
                    (path_join (path_join dataroot "unlabel_data") "image") /\
    data_size ds = Z.of_nat (length (idx_list ds)) /\
    phase ds = phase0 /\ is_label ds = false.
Proof.
  rewrite init_unlabeled. eexists. split; [reflexivity|]. repeat split.
Qed.

(** ** The encoder [_mask_labels] *)

Lemma map_fmap {A B} (f : A -> B) (l : list A) : map f l = f <$> l.
Proof. reflexivity. Qed.

Lemma at2_map {A B} (f : A -> B) (a : list (list A)) y x :
  at2 (map (map f) a) y x = f <$> at2 a y x.
Proof.
  unfold at2. rewrite map_fmap, list_lookup_fmap.
  destruct (a !! y) as [row|]; [|reflexivity].
  cbn. rewrite map_fmap. apply list_lookup_fmap.
Qed.

Lemma masked_assign_row (z v : spec_float) (i : Z) (row : list Z) :
  zip_with (fun x (b : bool) => if b then v else x)
           (replicate (length row) z) (map (fun u => u =? i) row)
  = map (fun u => if u =? i then v else z) row.
Proof. induction row as [|u row IH]; [reflexivity|]. cbn. now rewrite IH. Qed.

Lemma masked_assign_rows (z v : spec_float) (i : Z) (w : nat) (a : array2) :
  Forall (fun row => length row = w) a ->
  masked_assign (replicate (length a) (replicate w z)) (np_eq a i) v
  = map (map (fun u => if u =? i then v else z)) a.
Proof.
  unfold masked_assign, np_eq.
  induction 1 as [|row a Hrow _ IH]; [reflexivity|].
  cbn. rewrite IH. f_equal. rewrite <- Hrow. apply masked_assign_row.
Qed.

Lemma has_shape_shape1 {A} (h w : nat) (a : list (list A)) :
  has_shape h w a -> Forall (fun row => length row = shape1 a) a.
Proof.
  intros [_ Hw]. destruct a as [|row a]; [constructor|].
  cbn. inversion Hw as [|? ? Hr Ha]; subst. constructor; [reflexivity | exact Ha].
Qed.

Lemma one_hot_length n mask : length (one_hot n mask) = n.
Proof. unfold one_hot. now rewrite length_map, length_seq. Qed.

Lemma one_hot_S n mask :
  one_hot (S n) mask
  = one_hot n mask
    ++ [map (map (fun v => if v =? Z.of_nat n then float_1_0 else float_0_0)) mask].
Proof. unfold one_hot. rewrite seq_S, map_app. reflexivity. Qed.

(** One turn of the loop of [_mask_labels]: channel [k] of the partly filled
    array is zero and becomes the indicator of label [k]. *)
Lemma mask_labels_step (mask : array2) (h w k m : nat) :
  has_shape h w mask ->
  setitem_masked
    (one_hot k mask
     ++ replicate (S m) (replicate (shape0 mask) (replicate (shape1 mask) float_0_0)))
    k (np_eq mask (Z.of_nat k)) float_1_0
  = Return (one_hot (S k) mask
            ++ replicate m (replicate (shape0 mask) (replicate (shape1 mask) float_0_0))).
Proof.
  intros Hs. unfold setitem_masked.
  rewrite lookup_app_r by (rewrite one_hot_length; lia).
  rewrite one_hot_length, Nat.sub_diag. cbn [replicate lookup list_lookup].
  f_equal. rewrite one_hot_S, <- app_assoc. cbn [app].
  rewrite insert_app_r_alt by (rewrite one_hot_length; lia).
  rewrite one_hot_length, Nat.sub_diag. cbn. do 2 f_equal.
  apply masked_assign_rows. eapply has_shape_shape1, Hs.
Qed.

Lemma mask_labels_loop (mask : array2) (h w m k : nat) :
  has_shape h w mask ->
  foldl (fun acc i =>
           let? labels := acc in
           setitem_masked labels i (np_eq mask (Z.of_nat i)) float_1_0)
        (Return (one_hot k mask
                 ++ replicate m (replicate (shape0 mask)
                                           (replicate (shape1 mask) float_0_0))))
        (seq k m)
  = Return (one_hot (k + m) mask).
Proof.
  intros Hs. revert k. induction m as [|m IH]; intros k.
  - cbn. now rewrite app_nil_r, Nat.add_0_r.
  - cbn [seq foldl outcome_bind]. rewrite (mask_labels_step _ _ _ _ _ Hs).
    rewrite IH. f_equal. f_equal. lia.
Qed.

(** On an array of shape (h, w) the loop computes the one-hot encoding. *)
Lemma mask_labels_closed ext (self : Dataset ext) (mask : array2) (h w : nat) :
  has_shape h w mask ->
  _mask_labels ext self mask = Return (one_hot (size (color_map self)) mask).
Proof.
  intros Hs. unfold _mask_labels, np_zeros.
  apply (mask_labels_loop mask h w (size (color_map self)) 0 Hs).
Qed.

Lemma the_color_map_size : size the_color_map = 8%nat.
Proof. vm_compute. reflexivity. Qed.

Lemma at3_one_hot n mask c y x :
  (c < n)%nat ->
  at3 (one_hot n mask) c y x
  = (fun v => if v =? Z.of_nat c then float_1_0 else float_0_0) <$> at2 mask y x.
Proof.
  intros Hc. unfold at3, one_hot.
  rewrite map_fmap, list_lookup_fmap, lookup_seq_lt by lia.
  cbn. apply at2_map.
Qed.

Lemma one_hot_shape n mask h w :
  has_shape h w mask -> Forall (has_shape h w) (one_hot n mask).
Proof.
  intros [Hh Hw]. unfold one_hot. rewrite map_fmap. apply Forall_fmap, Forall_forall.
  intros c _. split; cbn.
  - now rewrite length_map.
  - rewrite map_fmap. apply Forall_fmap. eapply Forall_impl; [exact Hw|].
    intros row Hr. cbn. now rewrite length_map.
Qed.

Lemma masked_assign_bits chan cond :
  Forall (Forall is_bit) chan ->
  Forall (Forall is_bit) (masked_assign chan cond float_1_0).
Proof.
  unfold masked_assign. intros H. revert cond.
  induction H as [|row chan Hrow _ IH]; intros [|c cond]; cbn; try constructor.
  - clear IH. revert c. induction Hrow as [|x row Hx _ IHr]; intros [|b c]; cbn;
      constructor; [destruct b; [now right | exact Hx] | apply IHr].
  - apply IH.
Qed.

Lemma mask_labels_loop_bits (mask : array2) (l : list nat) (labels : tensor) :
  Forall (Forall (Forall is_bit)) labels ->
  Forall (fun i => (i < length labels)%nat) l ->
  exists labels',
    foldl (fun acc i =>
             let? labels := acc in
             setitem_masked labels i (np_eq mask (Z.of_nat i)) float_1_0)
          (Return labels) l
    = Return labels' /\
    length labels' = length labels /\ Forall (Forall (Forall is_bit)) labels'.
Proof.
  revert labels. induction l as [|i l IH]; intros labels Hb Hl.
  - exists labels. repeat split; assumption.
  - inversion Hl as [|? ? Hi Hl']; subst. cbn [foldl outcome_bind].
    unfold setitem_masked at 2.
    destruct (lookup_lt_is_Some_2 labels i Hi) as [chan Hc]. rewrite Hc.
    destruct (IH (<[i := masked_assign chan (np_eq mask (Z.of_nat i)) float_1_0]> labels))
      as (labels' & Hf & Hlen & Hb').
    + apply Forall_insert; [exact Hb|]. apply masked_assign_bits.
      eapply Forall_lookup_1; [exact Hb | exact Hc].
    + now rewrite length_insert.
    + exists labels'. rewrite length_insert in Hlen. repeat split; assumption.
Qed.

(** [_mask_labels] returns on every input, with one channel per entry of
    the colour map and no value other than 0.0 and 1.0. *)
Lemma mask_labels_bits ext (self : Dataset ext) (mask : array2) :
  exists labels,
    _mask_labels ext self mask = Return labels /\
    length labels = size (color_map self) /\
    Forall (Forall (Forall is_bit)) labels.
Proof.
  unfold _mask_labels.
  destruct (mask_labels_loop_bits mask (seq 0 (size (color_map self)))
              (np_zeros (size (color_map self)) (shape0 mask) (shape1 mask)))
    as (labels & Hf & Hlen & Hb).
  - unfold np_zeros. repeat apply Forall_replicate. now left.
  - unfold np_zeros. rewrite length_replicate. apply Forall_forall.
    intros i Hi. apply elem_of_seq in Hi. lia.
  - exists labels. unfold np_zeros in Hlen. rewrite length_replicate in Hlen.
    repeat split; assumption.
Qed.

Lemma map3_map3 {A B C} (f : A -> B) (g : B -> C) (t : list (list (list A))) :
  map3 g (map3 f t) = map3 (fun x => g (f x)) t.
Proof.
  unfold map3. rewrite map_map. apply map_ext. intros chan.
  rewrite map_map. apply map_ext. intros row. apply map_map.
Qed.

Lemma map3_ext_Forall {A B} (P : A -> Prop) (f g : A -> B) (t : list (list (list A))) :
  (forall x, P x -> f x = g x) ->
  Forall (Forall (Forall P)) t -> map3 f t = map3 g t.
Proof.
  intros Hfg Ht. unfold map3.
  apply map_ext_Forall. eapply Forall_impl; [exact Ht|]. intros chan Hc. cbn in *.
  apply map_ext_Forall. eapply Forall_impl; [exact Hc|]. intros row Hr. cbn in *.
  apply map_ext_Forall. eapply Forall_impl; [exact Hr|]. intros x Hx. now apply Hfg.
Qed.

(** The float32 rescaling of a bit, and its inverse. *)
Lemma rescale_bit x :
  is_bit x ->
  SFdiv 24 128 (SFsub 24 128 (f32_of_f64 x) (f32_of_f64 float_0_5)) (f32_of_f64 float_0_5)
  = (if SFeqb x float_1_0 then f32_one else f32_minus_one).
Proof. intros [-> | ->]; vm_compute; reflexivity. Qed.

Lemma unscale_rescale_bit x :
  is_bit x ->
  SFadd 24 128
    (SFmul 24 128
       (SFdiv 24 128 (SFsub 24 128 (f32_of_f64 x) (f32_of_f64 float_0_5))
              (f32_of_f64 float_0_5))
       (f32_of_f64 float_0_5))
    (f32_of_f64 float_0_5)
  = f32_of_f64 x.
Proof. intros [-> | ->]; vm_compute; reflexivity. Qed.

(** C2: for a label array of shape (H, W) with values in [0,7], the encoder
    returns an array of shape (8, H, W) in which, at every pixel, the channel
    of the pixel's label is 1.0 and the seven others are 0.0 (before the
    rescaling); on [[0,1],[2,7]] channel 0 is hot at (0,0), channel 1 at
    (0,1), channel 2 at (1,0), channel 7 at (1,1) and all else is 0. *)
Theorem mask_labels_one_hot ext (self : Dataset ext) (mask_np : array2) (H W : nat) :
  color_map self = the_color_map ->
  has_shape H W mask_np ->
  Forall (Forall (fun v => 0 <= v <= 7)) mask_np ->
  (exists labels,
     _mask_labels ext self mask_np = Return labels /\
     length labels = 8%nat /\ Forall (has_shape H W) labels /\
     forall y x v,
       at2 mask_np y x = Some v ->
       at3 labels (Z.to_nat v) y x = Some float_1_0 /\
       forall c, (c < 8)%nat -> c <> Z.to_nat v -> at3 labels c y x = Some float_0_0) /\
  _mask_labels ext self [[0; 1]; [2; 7]]
  = Return [ [[float_1_0; float_0_0]; [float_0_0; float_0_0]];
             [[float_0_0; float_1_0]; [float_0_0; float_0_0]];
             [[float_0_0; float_0_0]; [float_1_0; float_0_0]];
             [[float_0_0; float_0_0]; [float_0_0; float_0_0]];
             [[float_0_0; float_0_0]; [float_0_0; float_0_0]];
             [[float_0_0; float_0_0]; [float_0_0; float_0_0]];
             [[float_0_0; float_0_0]; [float_0_0; float_0_0]];
             [[float_0_0; float_0_0]; [float_0_0; float_1_0]] ].
Proof.
  intros Hcm Hs Hr. split.
  - exists (one_hot 8 mask_np).
    rewrite (mask_labels_closed ext self mask_np H W Hs), Hcm, the_color_map_size.
    split; [reflexivity|]. split; [apply one_hot_length|].
    split; [now apply one_hot_shape|].
    intros y x v Hv.
    assert (Hv07 : 0 <= v <= 7).
    { unfold at2 in Hv. destruct (mask_np !! y) as [row|] eqn:Hy; [|discriminate].
      eapply Forall_lookup_1 in Hr; [|exact Hy].
      eapply Forall_lookup_1 in Hr; [|exact Hv]. exact Hr. }
    split.
    + rewrite at3_one_hot by lia. rewrite Hv. cbn.
      rewrite Z2Nat.id, Z.eqb_refl by lia. reflexivity.
    + intros c Hc Hne. rewrite at3_one_hot by lia. rewrite Hv. cbn.
      destruct (Z.eqb_spec v (Z.of_nat c)); [|reflexivity]. subst v.
      rewrite Nat2Z.id in Hne. now elim Hne.
  - unfold _mask_labels. rewrite Hcm, the_color_map_size. reflexivity.
Qed.

(** C8: a pixel whose value lies outside [0,7] raises nothing and sets no
    channel: the eight channels are 0.0 there (before the rescaling), while
    a pixel with a value in [0,7] is encoded as usual. *)
Theorem mask_labels_out_of_range ext (self : Dataset ext) (mask_np : array2) (H W : nat) :
  color_map self = the_color_map ->
  has_shape H W mask_np ->
  exists labels,
    _mask_labels ext self mask_np = Return labels /\
    forall y x v,
      at2 mask_np y x = Some v ->
      (v < 0 \/ 7 < v ->
       forall c, (c < 8)%nat -> at3 labels c y x = Some float_0_0) /\
      (0 <= v <= 7 ->
       at3 labels (Z.to_nat v) y x = Some float_1_0 /\
       forall c, (c < 8)%nat -> c <> Z.to_nat v -> at3 labels c y x = Some float_0_0).
Proof.
  intros Hcm Hs. exists (one_hot 8 mask_np).
  rewrite (mask_labels_closed ext self mask_np H W Hs), Hcm, the_color_map_size.
  split; [reflexivity|]. intros y x v Hv. split.
  - intros Hout c Hc. rewrite at3_one_hot by lia. rewrite Hv. cbn.
    destruct (Z.eqb_spec v (Z.of_nat c)); [lia | reflexivity].
  - intros Hv07. split.
    + rewrite at3_one_hot by lia. rewrite Hv. cbn.
      rewrite Z2Nat.id, Z.eqb_refl by lia. reflexivity.
    + intros c Hc Hne. rewrite at3_one_hot by lia. rewrite Hv. cbn.
      destruct (Z.eqb_spec v (Z.of_nat c)); [|reflexivity]. subst v.
      rewrite Nat2Z.id in Hne. now elim Hne.
Qed.

(** C3: for every label array, [x * 0.5 + 0.5] applied to the rescaled
    mask tensor [(one_hot - 0.5) / 0.5] gives back the float32 one-hot
    tensor, value for value. *)
Theorem mask_rescale_round_trip ext (self : Dataset ext) (mask_np : array2) :
  exists labels mask_tensor,
    _mask_labels ext self mask_np = Return labels /\
    encode_mask ext self mask_np = Return mask_tensor /\
    mask_tensor = tensor_div (tensor_sub (torch_tensor_float labels) float_0_5) float_0_5 /\
    unscale mask_tensor = torch_tensor_float labels.
Proof.
  destruct (mask_labels_bits ext self mask_np) as (labels & Hl & _ & Hb).
  exists labels. eexists. split; [exact Hl|].
  unfold encode_mask. rewrite Hl. cbn [outcome_bind].
  split; [reflexivity|]. split; [reflexivity|].
  unfold unscale, tensor_add, tensor_mul, tensor_div, tensor_sub, torch_tensor_float.
  rewrite !map3_map3.
  apply (map3_ext_Forall is_bit); [|exact Hb].
  intros x Hx. now apply unscale_rescale_bit.
Qed.

(** ** [__len__] and [__getitem__] *)

(** [__getitem__] without the monad: the outcome, the final state and the
    log of external calls along each path of the method. *)
Lemma getitem_paths ext (idx : Z) (st : state ext) :
  __getitem__ ext idx st =
  match wrap_index ext (st_self st) idx with
  | Raise e => (Raise e, st, [])
  | Return i =>
  match py_list_getitem (idx_list (st_self st)) i with
  | Raise e => (Raise e, st, [])
  | Return img_idx =>
  match Image_open ext (path_join (img_dir (st_self st)) (img_idx +:+ ".jpg")) with
  | None =>
      (Raise FileNotFoundError, st,
       [EvOpen (path_join (img_dir (st_self st)) (img_idx +:+ ".jpg"))])
  | Some raw =>
  if is_label (st_self st) then
    match Image_open ext (path_join (label_dir (st_self st)) (img_idx +:+ ".png")) with
    | None =>
        (Raise FileNotFoundError, st,
         [EvOpen (path_join (img_dir (st_self st)) (img_idx +:+ ".jpg"));
          EvOpen (path_join (label_dir (st_self st)) (img_idx +:+ ".png"))])
    | Some rawm =>
    if (String.eqb (phase (st_self st)) "train"
        || String.eqb (phase (st_self st)) "train-val") && aug (st_self st)
    then
      match aug_t (st_self st) with
      | None =>
          (Raise AttributeError, st,
           [EvOpen (path_join (img_dir (st_self st)) (img_idx +:+ ".jpg"));
            EvOpen (path_join (label_dir (st_self st)) (img_idx +:+ ".png"))])
      | Some t =>
         (match
            encode_mask ext (st_self st)
              (aug_call ext t (st_rng st)
                 (np_array_rgb ext
                    (resize ext (convert ext raw "RGB")
                       (resolution (st_self st), resolution (st_self st)) None))
                 (np_array_l ext
                    (resize ext (convert ext rawm "L")
                       (resolution (st_self st), resolution (st_self st)) (Some 0)))).1.2
          with
          | Raise e => Raise e
          | Return mask_tensor =>
              Return
                [("image"%string,
                  preprocess ext
                    (Image_fromarray ext
                       (aug_call ext t (st_rng st)
                          (np_array_rgb ext
                             (resize ext (convert ext raw "RGB")
                                (resolution (st_self st), resolution (st_self st)) None))
                          (np_array_l ext
                             (resize ext (convert ext rawm "L")
                                (resolution (st_self st), resolution (st_self st))
                                (Some 0)))).1.1));
                 ("mask"%string, mask_tensor)]
          end,
          {| st_self := st_self st;
             st_rng :=
               (aug_call ext t (st_rng st)
                  (np_array_rgb ext
                     (resize ext (convert ext raw "RGB")
                        (resolution (st_self st), resolution (st_self st)) None))
                  (np_array_l ext
                     (resize ext (convert ext rawm "L")
                        (resolution (st_self st), resolution (st_self st)) (Some 0)))).2 |},
          [EvOpen (path_join (img_dir (st_self st)) (img_idx +:+ ".jpg"));
           EvOpen (path_join (label_dir (st_self st)) (img_idx +:+ ".png"));
           EvAugment])
      end
    else
      (match
         encode_mask ext (st_self st)
           (np_array_l ext
              (resize ext (convert ext rawm "L")
                 (resolution (st_self st), resolution (st_self st)) (Some 0)))
       with
       | Raise e => Raise e
       | Return mask_tensor =>
           Return
             [("image"%string,
               preprocess ext
                 (resize ext (convert ext raw "RGB")
                    (resolution (st_self st), resolution (st_self st)) None));
              ("mask"%string, mask_tensor)]
       end,
       st,
       [EvOpen (path_join (img_dir (st_self st)) (img_idx +:+ ".jpg"));
        EvOpen (path_join (label_dir (st_self st)) (img_idx +:+ ".png"))])
    end
  else
    (Return
       [("image"%string,
         default (preprocess ext) (unlabel_transform (st_self st))
           (resize ext (convert ext raw "RGB")
              (resolution (st_self st), resolution (st_self st)) None))],
     match unlabel_transform (st_self st) with
     | None =>
         {| st_self := set_unlabel_transform ext (st_self st) (Some (preprocess ext));
            st_rng := st_rng st |}
     | Some _ => st
     end,
     [EvOpen (path_join (img_dir (st_self st)) (img_idx +:+ ".jpg"))])
  end end end.
Proof.
  unfold __getitem__, bind, get_self, lift, ret, open_image, call_aug, put_self.
  destruct (wrap_index ext (st_self st) idx) as [i|e]; [|reflexivity].
  destruct (py_list_getitem (idx_list (st_self st)) i) as [img_idx|e]; [|reflexivity].
  destruct (Image_open ext (path_join (img_dir (st_self st)) (img_idx +:+ ".jpg")))
    as [raw|]; [|reflexivity].
  destruct (is_label (st_self st)).
  - destruct (Image_open ext (path_join (label_dir (st_self st)) (img_idx +:+ ".png")))
      as [rawm|]; [|reflexivity].
    destruct ((String.eqb (phase (st_self st)) "train"
               || String.eqb (phase (st_self st)) "train-val") && aug (st_self st)).
    + destruct (aug_t (st_self st)) as [t|]; [|reflexivity].
      destruct (aug_call ext t (st_rng st) _ _) as [[image' mask'] g]. cbn.
      destruct (encode_mask ext (st_self st) mask'); reflexivity.
    + cbn. destruct (encode_mask ext (st_self st) _); destruct st; reflexivity.
  - destruct (unlabel_transform (st_self st)); destruct st; reflexivity.
Qed.

Lemma getitem_wrap_eq ext (idx idx' : Z) (st : state ext) :
  wrap_index ext (st_self st) idx = wrap_index ext (st_self st) idx' ->
  __getitem__ ext idx st = __getitem__ ext idx' st.
Proof. intros H. rewrite !getitem_paths, H. reflexivity. Qed.

Lemma wrap_index_beyond ext (self : Dataset ext) (idx : Z) :
  data_size self <= idx -> data_size self <> 0 ->
  wrap_index ext self idx = Return (idx mod data_size self).
Proof.
  intros Hle Hnz. unfold wrap_index, py_mod.
  destruct (Z.leb_spec (data_size self) idx); [|lia].
  destruct (Z.eqb_spec (data_size self) 0); [lia | reflexivity].
Qed.


Lemma wrap_index_zero_size ext (self : Dataset ext) (idx : Z) :
  data_size self = 0 -> 0 <= idx ->
  wrap_index ext self idx = Raise ZeroDivisionError.
Proof.
  intros Hz Hi. unfold wrap_index, py_mod. rewrite Hz.
  destruct (Z.leb_spec 0 idx); [reflexivity | lia].
Qed.

Lemma py_list_getitem_in_range {A} (l : list A) (i : Z) :
  0 <= i < Z.of_nat (length l) ->
  exists x, py_list_getitem l i = Return x /\ l !! Z.to_nat i = Some x.
Proof.
  intros Hi. unfold py_list_getitem.
  destruct (Z.ltb_spec i 0); [lia|].
  destruct (Z.leb_spec 0 i); [|lia].
  destruct (Z.ltb_spec i (Z.of_nat (length l))); [|lia]. cbn.
  destruct (lookup_lt_is_Some_2 l (Z.to_nat i)) as [x Hx]; [lia|].
  rewrite Hx. eauto.
Qed.

Lemma encode_mask_returns ext (self : Dataset ext) (mask : array2) :
  exists mask_tensor, encode_mask ext self mask = Return mask_tensor.
Proof.
  destruct (mask_labels_bits ext self mask) as (labels & Hl & _).
  unfold encode_mask. rewrite Hl. cbn. eauto.
Qed.


(** C5: without an [n_gpu] field in [args] the reported length is the real
    sample count; with [batch] and [n_gpu] it is the larger of
    [batch * n_gpu] and the real count, hence the replication factor when
    that exceeds the real count. *)
Theorem len_replication_factor ext (self : Dataset ext) :
  (args self !! "n_gpu"%string = None -> __len__ ext self = Return (data_size self)) /\
  (forall batch n_gpu,
     args self !! "batch"%string = Some batch ->
     args self !! "n_gpu"%string = Some n_gpu ->
     __len__ ext self = Return (Z.max (batch * n_gpu) (data_size self)) /\
     (data_size self < batch * n_gpu -> __len__ ext self = Return (batch * n_gpu)) /\
     (batch * n_gpu <= data_size self -> __len__ ext self = Return (data_size self))).
Proof.
  unfold __len__, hasattr_args, getattr_args. split.
  - intros ->. rewrite bool_decide_eq_false_2; [reflexivity|].
    intros [? ?]; discriminate.
  - intros batch n_gpu -> ->. rewrite bool_decide_eq_true_2 by eauto. cbn.
    repeat split; intros; f_equal; lia.
Qed.

Lemma getitem_zero_size ext (st : state ext) (idx : Z) :
  data_size (st_self st) = 0 -> 0 <= idx ->
  __getitem__ ext idx st = (Raise ZeroDivisionError, st, []).
Proof.
  intros Hz Hi. now rewrite getitem_paths, wrap_index_zero_size.
Qed.

(** C10: when the dataset holds no identifier (real size 0), every call
    with [idx >= 0] raises ZeroDivisionError at the wrapping step: the state
    is unchanged and no file has been opened. *)
Theorem getitem_empty_dataset ext (st : state ext) (idx : Z) :
  data_size (st_self st) = 0 -> 0 <= idx ->
  __getitem__ ext idx st = (Raise ZeroDivisionError, st, []) /\
  wrap_index ext (st_self st) idx = Raise ZeroDivisionError.
Proof.
  intros Hz Hi. rewrite getitem_paths, wrap_index_zero_size by assumption.
  split; reflexivity.
Qed.

Lemma augments_dec ext (self : Dataset ext) :
  augments self <->
  is_label self = true /\
  ((String.eqb (phase self) "train" || String.eqb (phase self) "train-val")
   && aug self) = true.
Proof.
  unfold augments. rewrite andb_true_iff, orb_true_iff, !String.eqb_eq. tauto.
Qed.

Ltac no_augment :=
  let H := fresh "Hin" in
  intros H; repeat (apply elem_of_cons in H as [H|H]; [discriminate|]);
  now apply elem_of_nil in H.

(** C6: the augmentation pipeline is applied to a sample if and only if the
    dataset is labeled, its phase is 'train' or 'train-val' and [aug] is
    set. When it is, the returned image and mask are the normalized and the
    encoded output of one pipeline call on the loaded pair, and the random
    state is the one that call left; in every other case the returned
    tensors are the normalized loaded image and, in labeled mode, the encoded
    loaded mask, with no pipeline call in between. *)
Theorem augmentor_applied_iff ext (st : state ext) (idx : Z) r st' evs :
  __getitem__ ext idx st = (r, st', evs) ->
  (EvAugment ∈ evs -> augments (st_self st)) /\
  (forall d, r = Return d ->
     (EvAugment ∈ evs <-> augments (st_self st)) /\
     (augments (st_self st) ->
      exists i img_idx raw rawm t image' mask' g mask_tensor,
        wrap_index ext (st_self st) idx = Return i /\
        py_list_getitem (idx_list (st_self st)) i = Return img_idx /\
        Image_open ext (path_join (img_dir (st_self st)) (img_idx +:+ ".jpg")) = Some raw /\
        Image_open ext (path_join (label_dir (st_self st)) (img_idx +:+ ".png"))
          = Some rawm /\
        aug_t (st_self st) = Some t /\
        aug_call ext t (st_rng st)
          (np_array_rgb ext
             (resize ext (convert ext raw "RGB")
                (resolution (st_self st), resolution (st_self st)) None))
          (np_array_l ext
             (resize ext (convert ext rawm "L")
                (resolution (st_self st), resolution (st_self st)) (Some 0)))
        = (image', mask', g) /\
        encode_mask ext (st_self st) mask' = Return mask_tensor /\
        d = [("image"%string, preprocess ext (Image_fromarray ext image'));
             ("mask"%string, mask_tensor)] /\
        st' = {| st_self := st_self st; st_rng := g |} /\
        evs = [EvOpen (path_join (img_dir (st_self st)) (img_idx +:+ ".jpg"));
               EvOpen (path_join (label_dir (st_self st)) (img_idx +:+ ".png"));
               EvAugment]) /\
     (~ augments (st_self st) ->
      exists i img_idx raw,
        wrap_index ext (st_self st) idx = Return i /\
        py_list_getitem (idx_list (st_self st)) i = Return img_idx /\
        Image_open ext (path_join (img_dir (st_self st)) (img_idx +:+ ".jpg")) = Some raw /\
        if is_label (st_self st) then
          exists rawm mask_tensor,
            Image_open ext (path_join (label_dir (st_self st)) (img_idx +:+ ".png"))
              = Some rawm /\
            encode_mask ext (st_self st)
              (np_array_l ext
                 (resize ext (convert ext rawm "L")
                    (resolution (st_self st), resolution (st_self st)) (Some 0)))
              = Return mask_tensor /\
            d = [("image"%string,
                  preprocess ext
                    (resize ext (convert ext raw "RGB")
                       (resolution (st_self st), resolution (st_self st)) None));
                 ("mask"%string, mask_tensor)] /\
            st' = st
        else
          d = [("image"%string,
                default (preprocess ext) (unlabel_transform (st_self st))
                  (resize ext (convert ext raw "RGB")
                     (resolution (st_self st), resolution (st_self st)) None))])).
Proof.
  rewrite getitem_paths. intros Hrun.
  pose proof (augments_dec ext (st_self st)) as Haug.
  destruct (wrap_index ext (st_self st) idx) as [i|e] eqn:Hw;
    [|injection Hrun as <- <- <-; split; [no_augment | discriminate]].
  destruct (py_list_getitem (idx_list (st_self st)) i) as [img_idx|e] eqn:Hg;
    [|injection Hrun as <- <- <-; split; [no_augment | discriminate]].
  destruct (Image_open ext (path_join (img_dir (st_self st)) (img_idx +:+ ".jpg")))
    as [raw|] eqn:Ho; [|injection Hrun as <- <- <-; split; [no_augment | discriminate]].
  destruct (is_label (st_self st)).
  - destruct (Image_open ext (path_join (label_dir (st_self st)) (img_idx +:+ ".png")))
      as [rawm|] eqn:Hm; [|injection Hrun as <- <- <-; split; [no_augment | discriminate]].
    destruct ((String.eqb (phase (st_self st)) "train"
               || String.eqb (phase (st_self st)) "train-val") && aug (st_self st)).
    + assert (Hyes : augments (st_self st)) by (apply Haug; split; reflexivity).
      destruct (aug_t (st_self st)) as [t|] eqn:Ht;
        [|injection Hrun as <- <- <-; split; [no_augment | discriminate]].
      destruct (aug_call ext t (st_rng st) _ _) as [[image' mask'] g] eqn:Hcall.
      cbn in Hrun.
      injection Hrun as <- <- <-. split; [intros _; exact Hyes|].
      intros d Hd.
      split; [split; [intros _; exact Hyes
                     | intros _; do 2 apply list_elem_of_further;
                       apply list_elem_of_here]|].
      split; [|intros Hno; now elim Hno].
      intros _.
      destruct (encode_mask ext (st_self st) mask') as [mask_tensor|e] eqn:He;
        [|discriminate].
      injection Hd as <-.
      exists i, img_idx, raw, rawm, t, image', mask', g, mask_tensor.
      repeat split; assumption.
    + assert (Hno : ~ augments (st_self st)).
      { intros Hyes. apply Haug in Hyes as [_ Hyes]. discriminate. }
      injection Hrun as <- <- <-. split; [no_augment|].
      intros d Hd. split; [split; [no_augment | intros Hyes; now elim Hno]|].
      split; [intros Hyes; now elim Hno|].
      intros _. exists i, img_idx, raw. do 3 (split; [first [assumption | reflexivity]|]).
      destruct (encode_mask ext (st_self st) _) as [mask_tensor|e] eqn:He;
        [|discriminate].
      exists rawm, mask_tensor. injection Hd as <-. repeat split; assumption.
  - assert (Hno : ~ augments (st_self st)).
    { intros Hyes. apply Haug in Hyes as [Hyes _]. discriminate. }
    injection Hrun as <- <- <-. split; [no_augment|].
    intros d Hd. split; [split; [no_augment | intros Hyes; now elim Hno]|].
    split; [intros Hyes; now elim Hno|].
    intros _. exists i, img_idx, raw. do 3 (split; [first [assumption | reflexivity]|]).
    now injection Hd as <-.
Qed.

(** ** The theorems on the small concrete world *)

Lemma train_val_split_80_20_witness :
  Z.of_nat (length (scan_idx_list toy_ext (labeled_img_dir "data"))) < 2 ^ 50 /\
  train_val_split ["0"; "1"; "2"; "3"; "4"]%string
  = Return (["0"; "1"; "2"; "3"]%string, ["4"]%string).
Proof.
  assert (H : Z.of_nat (length (scan_idx_list toy_ext (labeled_img_dir "data"))) < 2 ^ 50)
    by (vm_compute; reflexivity).
  split; [exact H|].
  exact (proj1 (train_val_split_80_20 toy_ext ∅ "data" None None None None false 256
                  (scan_idx_list toy_ext (labeled_img_dir "data")) eq_refl H)).
Defined.

Lemma toy_train_constructed : toy_dataset true "train" true = Return toy_train.
Proof. vm_compute. reflexivity. Qed.

Lemma toy_val_constructed : toy_dataset true "val" false = Return toy_val.
Proof. vm_compute. reflexivity. Qed.

Lemma toy_unlabeled_constructed : toy_dataset false "test" false = Return toy_unlabeled.
Proof. vm_compute. reflexivity. Qed.

Lemma empty_dataset_constructed :
  __init__ empty_ext ∅ "data" None None true "train" None None false 256
  = Return empty_dataset.
Proof. vm_compute. reflexivity. Qed.

Lemma mask_labels_one_hot_witness :
  (color_map toy_train = the_color_map /\ has_shape 2 2 toy_mask /\
   Forall (Forall (fun v => 0 <= v <= 7)) toy_mask) /\
  exists labels,
    _mask_labels toy_ext toy_train toy_mask = Return labels /\ length labels = 8%nat.
Proof.
  assert (H1 : color_map toy_train = the_color_map) by reflexivity.
  assert (H2 : has_shape 2 2 toy_mask) by (split; [reflexivity | repeat constructor]).
  assert (H3 : Forall (Forall (fun v => 0 <= v <= 7)) toy_mask)
    by (repeat constructor; lia).
  split; [auto|].
  destruct (proj1 (mask_labels_one_hot toy_ext toy_train toy_mask 2 2 H1 H2 H3))
    as (labels & Hl & Hlen & _).
  exists labels. split; assumption.
Defined.

Lemma mask_labels_out_of_range_witness :
  (color_map toy_train = the_color_map /\ has_shape 2 2 [[0; 9]; [200; 7]]) /\
  exists labels,
    _mask_labels toy_ext toy_train [[0; 9]; [200; 7]] = Return labels /\
    forall c, (c < 8)%nat -> at3 labels c 1 0 = Some float_0_0.
Proof.
  assert (H1 : color_map toy_train = the_color_map) by reflexivity.
  assert (H2 : has_shape 2 2 [[0; 9]; [200; 7]])
    by (split; [reflexivity | repeat constructor]).
  split; [auto|].
  destruct (mask_labels_out_of_range toy_ext toy_train [[0; 9]; [200; 7]] 2 2 H1 H2)
    as (labels & Hl & Hpix).
  exists labels. split; [exact Hl|].
  apply (proj1 (Hpix 1%nat 0%nat 200 eq_refl)). right. lia.
Defined.


Lemma augmentor_applied_iff_witness :
  exists d st' evs,
    __getitem__ toy_ext 1 (toy_state toy_train) = (Return d, st', evs) /\
    EvAugment ∈ evs /\ st_rng st' = 1.
Proof.
  eexists _, _, _.
  assert (H : __getitem__ toy_ext 1 (toy_state toy_train) = (Return _, _, _))
    by (vm_compute; reflexivity).
  split; [exact H|].
  assert (Hyes : augments (st_self (toy_state toy_train))).
  { split; [reflexivity|]. split; [now left | reflexivity]. }
  destruct (proj2 (augmentor_applied_iff toy_ext (toy_state toy_train) 1 _ _ _ H)
              _ eq_refl) as (Hiff & Hpair & _).
  split; [apply Hiff, Hyes | reflexivity].
Defined.

Lemma getitem_empty_dataset_witness :
  (data_size (st_self {| st_self := empty_dataset; st_rng := 0 |}) = 0 /\ 0 <= 3) /\
  __getitem__ empty_ext 3 {| st_self := empty_dataset; st_rng := 0 |}
  = (Raise ZeroDivisionError, {| st_self := empty_dataset; st_rng := 0 |}, []).
Proof.
  assert (H1 : data_size (st_self {| st_self := empty_dataset; st_rng := 0 |}) = 0)
    by reflexivity.
  assert (H2 : 0 <= 3) by lia.
  split; [auto|].
  exact (proj1 (getitem_empty_dataset empty_ext
                  {| st_self := empty_dataset; st_rng := 0 |} 3 H1 H2)).
Defined.

(** ** Further properties of [__len__] and of the index handling *)

(** [__len__] raises exactly when [args] has [n_gpu] but no [batch], and
    then it raises AttributeError. *)
Theorem len_raises_iff ext (self : Dataset ext) (e : exn) :
  __len__ ext self = Raise e <->
  is_Some (args self !! "n_gpu"%string) /\ args self !! "batch"%string = None
  /\ e = AttributeError.
Proof.
  unfold __len__, hasattr_args, getattr_args.
  destruct (args self !! "n_gpu"%string) as [g|] eqn:Hg.
  - rewrite bool_decide_eq_true_2 by eauto. cbn.
    destruct (args self !! "batch"%string) as [b|] eqn:Hb; cbn.
    + split; [discriminate | intros (_ & H & _); discriminate].
    + split; [intros [= <-]; eauto | intros (_ & _ & ->); reflexivity].
  - rewrite bool_decide_eq_false_2 by (intros [? ?]; discriminate). cbn.
    split; [discriminate | intros ([? ?] & _); discriminate].
Qed.

(** A returned length is never below the real sample count, and it is
    either that count or the product [batch * n_gpu]. *)
Theorem len_at_least_size ext (self : Dataset ext) (n : Z) :
  __len__ ext self = Return n ->
  data_size self <= n /\
  (n = data_size self \/
   exists batch n_gpu,
     args self !! "batch"%string = Some batch /\
     args self !! "n_gpu"%string = Some n_gpu /\ n = batch * n_gpu).
Proof.
  unfold __len__, hasattr_args, getattr_args.
  destruct (args self !! "n_gpu"%string) as [g|] eqn:Hg.
  - rewrite bool_decide_eq_true_2 by eauto. cbn.
    destruct (args self !! "batch"%string) as [b|] eqn:Hb; cbn; [|discriminate].
    intros [= <-]. split; [lia|].
    destruct (Z.max_spec (b * g) (data_size self)) as [[_ ->] | [_ ->]];
      [now left | right; exists b, g; repeat split].
  - rewrite bool_decide_eq_false_2 by (intros [? ?]; discriminate). cbn.
    intros [= <-]. split; [lia | now left].
Qed.

(** Two indexes that resolve to the same identifier (or fail alike) give the
    same call. *)
Lemma getitem_same_identifier ext (idx idx' : Z) (st : state ext) :
  (let? i := wrap_index ext (st_self st) idx in
   py_list_getitem (idx_list (st_self st)) i)
  = (let? i := wrap_index ext (st_self st) idx' in
     py_list_getitem (idx_list (st_self st)) i) ->
  __getitem__ ext idx st = __getitem__ ext idx' st.
Proof.
  rewrite !getitem_paths. unfold outcome_bind.
  destruct (wrap_index ext (st_self st) idx) as [i|e],
           (wrap_index ext (st_self st) idx') as [i'|e']; intros H.
  - now rewrite H.
  - now rewrite H.
  - now rewrite <- H.
  - now injection H as ->.
Qed.

Lemma wrap_index_below ext (self : Dataset ext) (idx : Z) :
  idx < data_size self -> wrap_index ext self idx = Return idx.
Proof.
  intros H. unfold wrap_index. destruct (Z.leb_spec (data_size self) idx); [lia|].
  reflexivity.
Qed.

Lemma wrap_index_nonneg ext (self : Dataset ext) (idx : Z) :
  0 < data_size self -> 0 <= idx ->
  wrap_index ext self idx = Return (idx mod data_size self).
Proof.
  intros Hs Hi. destruct (Z.lt_ge_cases idx (data_size self)).
  - rewrite wrap_index_below, Z.mod_small by lia. reflexivity.
  - apply wrap_index_beyond; lia.
Qed.


(** On non-negative indexes [__getitem__] is periodic with period
    [data_size]: this is what lets [__len__] report a replication factor
    larger than the dataset. *)
Theorem getitem_periodic ext (st : state ext) (idx k : Z) :
  0 < data_size (st_self st) -> 0 <= idx -> 0 <= k ->
  __getitem__ ext (idx + k * data_size (st_self st)) st = __getitem__ ext idx st.
Proof.
  intros Hpos Hi Hk. apply getitem_wrap_eq.
  rewrite !wrap_index_nonneg by nia.
  now rewrite Z.mod_add by lia.
Qed.

(** A negative index counts from the end of the identifier list, as Python
    list indexing does; below [- data_size] the call raises IndexError
    without opening a file. *)
Theorem getitem_negative_index ext (st : state ext) (idx : Z) :
  sized (st_self st) -> idx < 0 ->
  (- data_size (st_self st) <= idx ->
   __getitem__ ext idx st = __getitem__ ext (idx + data_size (st_self st)) st) /\
  (idx < - data_size (st_self st) ->
   __getitem__ ext idx st = (Raise IndexError, st, [])).
Proof.
  intros Hsz Hneg. unfold sized in Hsz. split.
  - intros Hlo. apply getitem_same_identifier.
    rewrite !wrap_index_below by lia. cbn [outcome_bind].
    unfold py_list_getitem. rewrite <- Hsz.
    destruct (Z.ltb_spec idx 0); [|lia].
    destruct (Z.ltb_spec (idx + data_size (st_self st)) 0); [lia|]. reflexivity.
  - intros Hlo. rewrite getitem_paths, wrap_index_below by lia.
    unfold py_list_getitem. rewrite <- Hsz.
    destruct (Z.ltb_spec idx 0); [|lia].
    destruct (Z.leb_spec 0 (idx + data_size (st_self st))); [lia|]. reflexivity.
Qed.

(** ** Further properties of the encoder and of [__getitem__] *)

Lemma Forall3_map3 {A B} (P : A -> Prop) (Q : B -> Prop) (f : A -> B)
    (t : list (list (list A))) :
  (forall x, P x -> Q (f x)) ->
  Forall (Forall (Forall P)) t -> Forall (Forall (Forall Q)) (map3 f t).
Proof.
  intros Hf Ht. unfold map3. rewrite map_fmap. apply Forall_fmap.
  eapply Forall_impl; [exact Ht|]. intros chan Hc. cbn.
  rewrite map_fmap. apply Forall_fmap.
  eapply Forall_impl; [exact Hc|]. intros row Hr. cbn.
  rewrite map_fmap. apply Forall_fmap.
  eapply Forall_impl; [exact Hr|]. intros x Hx. cbn. now apply Hf.
Qed.

Lemma rescaled_bits (labels : tensor) :
  Forall (Forall (Forall is_bit)) labels ->
  length (tensor_div (tensor_sub (torch_tensor_float labels) float_0_5) float_0_5)
    = length labels /\
  Forall (Forall (Forall is_pm1))
         (tensor_div (tensor_sub (torch_tensor_float labels) float_0_5) float_0_5).
Proof.
  intros Hb. unfold tensor_div, tensor_sub, torch_tensor_float. rewrite !map3_map3.
  split.
  - unfold map3. now rewrite length_map.
  - apply (Forall3_map3 is_bit); [|exact Hb].
    intros x Hx. rewrite (rescale_bit x Hx).
    destruct (SFeqb x float_1_0); [now right | now left].
Qed.

Lemma encode_mask_run ext (self : Dataset ext) (mask_np : array2) :
  exists labels,
    length labels = size (color_map self) /\
    Forall (Forall (Forall is_bit)) labels /\
    encode_mask ext self mask_np
    = Return (tensor_div (tensor_sub (torch_tensor_float labels) float_0_5) float_0_5).
Proof.
  destruct (mask_labels_bits ext self mask_np) as (labels & Hl & Hlen & Hb).
  exists labels. unfold encode_mask. rewrite Hl. repeat split; assumption.
Qed.

(** The mask tensor of a label array holds no value other than -1.0 and
    1.0, whatever the array, and it has one channel per colour-map entry. *)
Theorem encode_mask_plus_minus_one ext (self : Dataset ext) (mask_np : array2) :
  exists mask_tensor,
    encode_mask ext self mask_np = Return mask_tensor /\
    length mask_tensor = size (color_map self) /\
    Forall (Forall (Forall is_pm1)) mask_tensor.
Proof.
  destruct (encode_mask_run ext self mask_np) as (labels & Hlen & Hb & He).
  destruct (rescaled_bits labels Hb) as [Hlen' Hpm].
  eexists. split; [exact He|]. split; [|exact Hpm].
  now rewrite Hlen'.
Qed.

Lemma at3_map3 {A B} (f : A -> B) (t : list (list (list A))) c y x :
  at3 (map3 f t) c y x = f <$> at3 t c y x.
Proof.
  unfold at3, map3. rewrite map_fmap, list_lookup_fmap.
  destruct (t !! c) as [chan|]; [|reflexivity]. cbn. apply at2_map.
Qed.

(** On a label array of shape (H, W) the mask tensor has shape (8, H, W);
    at pixel (y, x) channel [c] is 1.0 when the label is [c] and -1.0
    otherwise, so a pixel outside [0,7] is -1.0 in all channels. *)
Theorem encode_mask_pointwise ext (self : Dataset ext) (mask_np : array2) (H W : nat) :
  color_map self = the_color_map ->
  has_shape H W mask_np ->
  exists mask_tensor,
    encode_mask ext self mask_np = Return mask_tensor /\
    length mask_tensor = 8%nat /\ Forall (has_shape H W) mask_tensor /\
    forall c y x v,
      (c < 8)%nat -> at2 mask_np y x = Some v ->
      at3 mask_tensor c y x
      = Some (if v =? Z.of_nat c then f32_one else f32_minus_one).
Proof.
  intros Hcm Hs. unfold encode_mask.
  rewrite (mask_labels_closed ext self mask_np H W Hs), Hcm, the_color_map_size.
  cbn [outcome_bind]. eexists. split; [reflexivity|].
  unfold tensor_div, tensor_sub, torch_tensor_float. rewrite !map3_map3.
  split; [|split].
  - unfold map3. now rewrite length_map, one_hot_length.
  - pose proof (one_hot_shape 8 mask_np H W Hs) as Hsh.
    unfold map3. rewrite map_fmap. apply Forall_fmap.
    eapply Forall_impl; [exact Hsh|]. intros chan [Hh Hw]. split; cbn.
    + now rewrite length_map.
    + rewrite map_fmap. apply Forall_fmap. eapply Forall_impl; [exact Hw|].
      intros row Hr. cbn. now rewrite length_map.
  - intros c y x v Hc Hv. rewrite at3_map3, at3_one_hot, Hv by lia. cbn.
    destruct (v =? Z.of_nat c); vm_compute; reflexivity.
Qed.

Lemma set_unlabel_transform_same ext (self : Dataset ext) :
  set_unlabel_transform ext self (unlabel_transform self) = self.
Proof. destruct self. reflexivity. Qed.

(** As long as no caller-supplied transform is involved (labeled mode, or
    [unlabel_transform] still None or already [preprocess]), [__getitem__]
    assigns no attribute of the object except [unlabel_transform], and that
    one only from None to [preprocess] on a successful unlabeled call; the
    random state changes only in a call that ran the augmentation
    pipeline. *)
Theorem getitem_state_change ext (st : state ext) (idx : Z) r st' evs :
  is_label (st_self st) = true \/ unlabel_transform (st_self st) = None \/
  unlabel_transform (st_self st) = Some (preprocess ext) ->
  __getitem__ ext idx st = (r, st', evs) ->
  st_self st' = set_unlabel_transform ext (st_self st) (unlabel_transform (st_self st')) /\
  (unlabel_transform (st_self st') = unlabel_transform (st_self st) \/
   is_label (st_self st) = false /\ unlabel_transform (st_self st) = None /\
   unlabel_transform (st_self st') = Some (preprocess ext) /\ exists d, r = Return d) /\
  (EvAugment ∉ evs -> st_rng st' = st_rng st).
Proof.
  intros Hown. rewrite getitem_paths. intros Hrun.
  assert (Hsame : forall r0 ev0, (r0, st, ev0) = (r, st', evs) ->
    st_self st' = set_unlabel_transform ext (st_self st) (unlabel_transform (st_self st')) /\
    (unlabel_transform (st_self st') = unlabel_transform (st_self st) \/
     is_label (st_self st) = false /\ unlabel_transform (st_self st) = None /\
     unlabel_transform (st_self st') = Some (preprocess ext) /\ exists d, r = Return d) /\
    (EvAugment ∉ evs -> st_rng st' = st_rng st)).
  { intros r0 ev0 [= <- <- <-]. rewrite set_unlabel_transform_same. auto. }
  destruct (wrap_index ext (st_self st) idx) as [i|e]; [|eauto].
  destruct (py_list_getitem (idx_list (st_self st)) i) as [img_idx|e]; [|eauto].
  destruct (Image_open ext (path_join (img_dir (st_self st)) (img_idx +:+ ".jpg")))
    as [raw|]; [|eauto].
  destruct (is_label (st_self st)) eqn:Hlab.
  - destruct (Image_open ext (path_join (label_dir (st_self st)) (img_idx +:+ ".png")))
      as [rawm|]; [|eauto].
    destruct (_ && _); [|eauto].
    destruct (aug_t (st_self st)) as [t|]; [|eauto].
    match type of Hrun with
    | context [encode_mask ext ?s ?m] =>
        destruct (encode_mask_returns ext s m) as [mask_tensor He]; rewrite He in Hrun
    end.
    injection Hrun as <- <- <-. cbn [st_self st_rng].
    rewrite set_unlabel_transform_same. split; [reflexivity|]. split; [now left|].
    intros Hno. elim Hno. do 2 apply list_elem_of_further. apply list_elem_of_here.
  - destruct (unlabel_transform (st_self st)) as [ut|] eqn:Hut.
    + apply (Hsame _ _ Hrun).
    + injection Hrun as <- <- <-. cbn [st_self st_rng].
      split; [destruct (st_self st); reflexivity|].
      split; [right; repeat split; eauto | reflexivity].
Qed.

(** An unlabeled dataset built without a transform behaves as one built
    with [preprocess]: same outcome and same log on every call, and after a
    successful call the two objects are the same. *)
Theorem default_transform_is_preprocess ext (self : Dataset ext) (g : rng ext) (idx : Z) :
  is_label self = false -> unlabel_transform self = None ->
  (__getitem__ ext idx {| st_self := self; st_rng := g |}).1.1
  = (__getitem__ ext idx
       {| st_self := set_unlabel_transform ext self (Some (preprocess ext));
          st_rng := g |}).1.1 /\
  (__getitem__ ext idx {| st_self := self; st_rng := g |}).2
  = (__getitem__ ext idx
       {| st_self := set_unlabel_transform ext self (Some (preprocess ext));
          st_rng := g |}).2 /\
  (forall d, (__getitem__ ext idx {| st_self := self; st_rng := g |}).1.1 = Return d ->
     (__getitem__ ext idx {| st_self := self; st_rng := g |}).1.2
     = (__getitem__ ext idx
          {| st_self := set_unlabel_transform ext self (Some (preprocess ext));
             st_rng := g |}).1.2).
Proof.
  intros Hlab Hut. rewrite !getitem_paths. cbn [st_self st_rng].
  change (wrap_index ext (set_unlabel_transform ext self (Some (preprocess ext))) idx)
    with (wrap_index ext self idx).
  cbn [set_unlabel_transform idx_list img_dir is_label unlabel_transform resolution].
  rewrite Hlab, Hut.
  destruct (wrap_index ext self idx) as [i|e];
    [|repeat split; intros; discriminate].
  destruct (py_list_getitem (idx_list self) i) as [img_idx|e];
    [|repeat split; intros; discriminate].
  destruct (Image_open ext _) as [raw|]; [|repeat split; intros; discriminate].
  repeat split.
Qed.

Lemma py_list_getitem_elem {A} (l : list A) (i : Z) (x : A) :
  py_list_getitem l i = Return x -> x ∈ l.
Proof.
  unfold py_list_getitem. destruct (_ && _); [|discriminate].
  destruct (l !! _) as [y|] eqn:Hy; [|discriminate].
  intros [= <-]. eapply list_elem_of_lookup_2, Hy.
Qed.

(** The files a call opens: first the image of one stored identifier, then,
    only in labeled mode and only if the image could be opened, the label
    file of the same identifier; the pipeline is called after both. *)
Theorem getitem_access_order ext (st : state ext) (idx : Z) :
  (__getitem__ ext idx st).2 = [] \/
  exists img_idx,
    img_idx ∈ idx_list (st_self st) /\
    ((__getitem__ ext idx st).2
       = [EvOpen (path_join (img_dir (st_self st)) (img_idx +:+ ".jpg"))] \/
     is_label (st_self st) = true /\
     is_Some (Image_open ext (path_join (img_dir (st_self st)) (img_idx +:+ ".jpg"))) /\
     ((__getitem__ ext idx st).2
        = [EvOpen (path_join (img_dir (st_self st)) (img_idx +:+ ".jpg"));
           EvOpen (path_join (label_dir (st_self st)) (img_idx +:+ ".png"))] \/
      augments (st_self st) /\
      (__getitem__ ext idx st).2
        = [EvOpen (path_join (img_dir (st_self st)) (img_idx +:+ ".jpg"));
           EvOpen (path_join (label_dir (st_self st)) (img_idx +:+ ".png"));
           EvAugment])).
Proof.
  rewrite getitem_paths.
  pose proof (augments_dec ext (st_self st)) as Haug.
  destruct (wrap_index ext (st_self st) idx) as [i|e]; [|now left].
  destruct (py_list_getitem (idx_list (st_self st)) i) as [img_idx|e] eqn:Hg;
    [|now left].
  right. exists img_idx. split; [eapply py_list_getitem_elem, Hg|].
  destruct (Image_open ext (path_join (img_dir (st_self st)) (img_idx +:+ ".jpg")))
    as [raw|]; [|now left].
  destruct (is_label (st_self st)); [|now left].
  right. split; [reflexivity|]. split; [eauto|].
  destruct (Image_open ext (path_join (label_dir (st_self st)) (img_idx +:+ ".png")))
    as [rawm|]; [|now left].
  destruct (_ && _); [|now left].
  destruct (aug_t (st_self st)) as [t|]; [|now left].
  right. split; [apply Haug; split; reflexivity | reflexivity].
Qed.

Lemma py_list_getitem_from_end {A} (l : list A) (i : Z) :
  - Z.of_nat (length l) <= i < 0 ->
  exists x, py_list_getitem l i = Return x /\
            l !! Z.to_nat (i + Z.of_nat (length l)) = Some x.
Proof.
  intros Hi. unfold py_list_getitem.
  destruct (Z.ltb_spec i 0); [|lia].
  destruct (Z.leb_spec 0 (i + Z.of_nat (length l))); [|lia].
  destruct (Z.ltb_spec (i + Z.of_nat (length l)) (Z.of_nat (length l))); [|lia]. cbn.
  destruct (lookup_lt_is_Some_2 l (Z.to_nat (i + Z.of_nat (length l)))) as [x Hx]; [lia|].
  rewrite Hx. eauto.
Qed.

(** The index step decides alone whether a call touches the file system:
    for an object whose [data_size] is the length of its list, a call makes
    no external call at all exactly when the dataset is empty and
    [idx >= 0] (it then raises ZeroDivisionError) or [idx < - data_size] (it
    then raises IndexError); in every other case its first external call
    opens the image of the identifier the index designates. *)
Theorem getitem_fails_before_files_iff ext (st : state ext) (idx : Z) :
  sized (st_self st) ->
  ((__getitem__ ext idx st).2 = [] <->
   data_size (st_self st) = 0 /\ 0 <= idx \/ idx < - data_size (st_self st)) /\
  (data_size (st_self st) = 0 -> 0 <= idx ->
   __getitem__ ext idx st = (Raise ZeroDivisionError, st, [])) /\
  (idx < - data_size (st_self st) ->
   __getitem__ ext idx st = (Raise IndexError, st, [])) /\
  (0 < data_size (st_self st) -> - data_size (st_self st) <= idx ->
   exists img_idx rest,
     idx_list (st_self st)
       !! Z.to_nat (if idx <? 0 then idx + data_size (st_self st)
                    else idx mod data_size (st_self st)) = Some img_idx /\
     (__getitem__ ext idx st).2
     = EvOpen (path_join (img_dir (st_self st)) (img_idx +:+ ".jpg")) :: rest).
Proof.
  intros Hsz. unfold sized in Hsz.
  assert (Hzero : data_size (st_self st) = 0 -> 0 <= idx ->
                  __getitem__ ext idx st = (Raise ZeroDivisionError, st, [])).
  { intros Hz Hi. now rewrite getitem_paths, wrap_index_zero_size. }
  assert (Hlow : idx < - data_size (st_self st) ->
                 __getitem__ ext idx st = (Raise IndexError, st, [])).
  { intros Hlo. rewrite getitem_paths, wrap_index_below by lia.
    unfold py_list_getitem. rewrite <- Hsz.
    destruct (Z.ltb_spec idx 0); [|lia].
    destruct (Z.leb_spec 0 (idx + data_size (st_self st))); [lia|]. reflexivity. }
  assert (Hopen : 0 < data_size (st_self st) -> - data_size (st_self st) <= idx ->
    exists img_idx rest,
      idx_list (st_self st)
        !! Z.to_nat (if idx <? 0 then idx + data_size (st_self st)
                     else idx mod data_size (st_self st)) = Some img_idx /\
      (__getitem__ ext idx st).2
      = EvOpen (path_join (img_dir (st_self st)) (img_idx +:+ ".jpg")) :: rest).
  { intros Hpos Hlo. rewrite getitem_paths.
    assert (Hres : exists i img_idx,
              wrap_index ext (st_self st) idx = Return i /\
              py_list_getitem (idx_list (st_self st)) i = Return img_idx /\
              idx_list (st_self st)
                !! Z.to_nat (if idx <? 0 then idx + data_size (st_self st)
                             else idx mod data_size (st_self st)) = Some img_idx).
    { destruct (Z.ltb_spec idx 0) as [Hneg|Hnn].
      - destruct (py_list_getitem_from_end (idx_list (st_self st)) idx)
          as (x & Hx & Hl); [lia|].
        exists idx, x. rewrite wrap_index_below by lia. rewrite <- Hsz in Hl. auto.
      - pose proof (Z.mod_pos_bound idx (data_size (st_self st)) Hpos).
        destruct (py_list_getitem_in_range (idx_list (st_self st))
                    (idx mod data_size (st_self st))) as (x & Hx & Hl); [lia|].
        exists (idx mod data_size (st_self st)), x.
        rewrite wrap_index_nonneg by lia. auto. }
    destruct Hres as (i & img_idx & -> & -> & Hl). exists img_idx.
    destruct (Image_open ext _) as [raw|];
      [|eexists; split; [exact Hl | reflexivity]].
    destruct (is_label (st_self st)); [|eexists; split; [exact Hl | reflexivity]].
    destruct (Image_open ext _) as [rawm|];
      [|eexists; split; [exact Hl | reflexivity]].
    destruct (_ && _); [|eexists; split; [exact Hl | reflexivity]].
    destruct (aug_t (st_self st)) as [t|]; eexists; split; first [exact Hl | reflexivity]. }
  split; [|auto]. split.
  - intros Hnil.
    destruct (Z.eq_dec (data_size (st_self st)) 0) as [Hz|Hnz].
    + destruct (Z.lt_ge_cases idx 0); [right; lia | left; lia].
    + destruct (Z.lt_ge_cases idx (- data_size (st_self st))); [now right|].
      destruct Hopen as (img_idx & rest & _ & Hev); [lia | lia |].
      rewrite Hev in Hnil. discriminate.
  - intros [[Hz Hi] | Hlo]; [now rewrite Hzero | now rewrite Hlow].
Qed.

(** When the pipeline is applied, image and mask go through one and the same
    call on the loaded pair: the image tensor is the normalized first output,
    the mask tensor the encoded second output, the random state after the
    sample is the one that call returned, and the object is unchanged. *)
Theorem augmented_sample_is_paired ext (st : state ext) (idx : Z) d st' evs :
  augments (st_self st) ->
  __getitem__ ext idx st = (Return d, st', evs) ->
  exists img_idx raw rawm t image' mask' g mask_tensor,
    img_idx ∈ idx_list (st_self st) /\
    Image_open ext (path_join (img_dir (st_self st)) (img_idx +:+ ".jpg")) = Some raw /\
    Image_open ext (path_join (label_dir (st_self st)) (img_idx +:+ ".png")) = Some rawm /\
    aug_t (st_self st) = Some t /\
    aug_call ext t (st_rng st)
      (np_array_rgb ext
         (resize ext (convert ext raw "RGB")
            (resolution (st_self st), resolution (st_self st)) None))
      (np_array_l ext
         (resize ext (convert ext rawm "L")
            (resolution (st_self st), resolution (st_self st)) (Some 0)))
    = (image', mask', g) /\
    encode_mask ext (st_self st) mask' = Return mask_tensor /\
    d = [("image"%string, preprocess ext (Image_fromarray ext image'));
         ("mask"%string, mask_tensor)] /\
    st' = {| st_self := st_self st; st_rng := g |}.
Proof.
  intros Hyes. pose proof (proj1 (augments_dec ext (st_self st)) Hyes) as [Hlab Hc].
  rewrite getitem_paths, Hlab, Hc.
  destruct (wrap_index ext (st_self st) idx) as [i|e]; [|discriminate].
  destruct (py_list_getitem (idx_list (st_self st)) i) as [img_idx|e] eqn:Hg;
    [|discriminate].
  destruct (Image_open ext (path_join (img_dir (st_self st)) (img_idx +:+ ".jpg")))
    as [raw|] eqn:Ho; [|discriminate].
  destruct (Image_open ext (path_join (label_dir (st_self st)) (img_idx +:+ ".png")))
    as [rawm|] eqn:Hm; [|discriminate].
  destruct (aug_t (st_self st)) as [t|] eqn:Ht; [|discriminate].
  destruct (aug_call ext t (st_rng st) _ _) as [[image' mask'] g] eqn:Hcall. cbn.
  destruct (encode_mask ext (st_self st) mask') as [mask_tensor|e] eqn:He;
    [|discriminate].
  intros [= <- <- <-].
  exists img_idx, raw, rawm, t, image', mask', g, mask_tensor.
  split; [eapply py_list_getitem_elem, Hg|]. repeat split; assumption.
Qed.

(** ** Identifiers and file names *)

Lemma replace_jpg_hit (rest : string) :
  replace_jpg (".jpg" +:+ rest) = replace_jpg rest.
Proof. reflexivity. Qed.

Lemma jpg_append (rest : string) :
  ".jpg" +:+ rest
  = String "."%char (String "j"%char (String "p"%char (String "g"%char rest))).
Proof. reflexivity. Qed.

Ltac bits c := destruct c as [[|] [|] [|] [|] [|] [|] [|] [|]]; try reflexivity.

Lemma replace_jpg_miss (c : ascii) (s : string) :
  (forall rest, String c s <> ".jpg" +:+ rest) ->
  replace_jpg (String c s) = String c (replace_jpg s).
Proof.
  intros Hmiss. bits c.
  destruct s as [|c2 s]; [reflexivity|]. bits c2.
  destruct s as [|c3 s]; [reflexivity|]. bits c3.
  destruct s as [|c4 s]; [reflexivity|]. bits c4.
  now elim (Hmiss s).
Qed.

Lemma starts_with_jpg_dec (s : string) :
  (exists rest, s = ".jpg" +:+ rest) \/ (forall rest, s <> ".jpg" +:+ rest).
Proof.
  destruct s as [|c1 [|c2 [|c3 [|c4 s]]]]; try (right; intros rest; discriminate).
  destruct (Ascii.ascii_dec c1 "."%char) as [->|]; [|right; intros rest [=]; congruence].
  destruct (Ascii.ascii_dec c2 "j"%char) as [->|]; [|right; intros rest [=]; congruence].
  destruct (Ascii.ascii_dec c3 "p"%char) as [->|]; [|right; intros rest [=]; congruence].
  destruct (Ascii.ascii_dec c4 "g"%char) as [->|]; [|right; intros rest [=]; congruence].
  left. now exists s.
Qed.

Lemma replace_jpg_length_aux (n : nat) (s : string) :
  (String.length s <= n)%nat ->
  (String.length (replace_jpg s) <= String.length s)%nat.
Proof.
  revert s. induction n as [|n IH]; intros s Hn.
  - destruct s; [reflexivity | cbn in Hn; lia].
  - destruct s as [|c s]; [reflexivity|].
    destruct (starts_with_jpg_dec (String c s)) as [[rest Hr] | Hmiss].
    + rewrite Hr, replace_jpg_hit. rewrite Hr in Hn.
      rewrite jpg_append in Hn |- *. cbn in Hn |- *.
      specialize (IH rest ltac:(lia)). lia.
    + rewrite replace_jpg_miss by assumption. cbn in Hn |- *.
      specialize (IH s ltac:(lia)). lia.
Qed.

(** Removing '.jpg' never lengthens a name. *)
Lemma replace_jpg_length (s : string) :
  (String.length (replace_jpg s) <= String.length s)%nat.
Proof. now apply (replace_jpg_length_aux (String.length s)). Qed.

(** A stem without any '.jpg' in it is recovered from the file name. *)
Lemma replace_jpg_stem (stem : string) :
  replace_jpg stem = stem -> replace_jpg (stem +:+ ".jpg") = stem.
Proof.
  induction stem as [|c s IH]; intros Hfix; [reflexivity|].
  destruct (starts_with_jpg_dec (String c s)) as [[rest Hr] | Hmiss].
  - exfalso. rewrite Hr, replace_jpg_hit in Hfix.
    pose proof (replace_jpg_length rest) as Hlen. rewrite Hfix in Hlen.
    rewrite jpg_append in Hlen. cbn in Hlen. lia.
  - rewrite replace_jpg_miss in Hfix by assumption. injection Hfix as Hfix.
    change (String c s +:+ ".jpg") with (String c (s +:+ ".jpg")).
    rewrite replace_jpg_miss; [now rewrite IH|].
    intros rest Heq. injection Heq as -> Heq.
    destruct s as [|c2 s]; [discriminate|]. injection Heq as -> Heq.
    destruct s as [|c3 s]; [discriminate|]. injection Heq as -> Heq.
    destruct s as [|c4 s]; [discriminate|]. injection Heq as -> Heq.
    now elim (Hmiss s).
Qed.

(** The identifier of a discovered file leads [__getitem__] back to that
    file: if the file's path relative to the image directory is [stem.jpg],
    with no other '.jpg' inside, its identifier is [stem], and a call at the
    position where that identifier is stored opens, as its first file, the
    image directory joined with the file's relative path. *)
Theorem identifier_names_its_file ext (st : state ext) (i : nat) (f stem : string) :
  sized (st_self st) ->
  f ∈ glob ext (path_join (path_join (img_dir (st_self st)) "**") "*.jpg") ->
  relpath ext f (img_dir (st_self st)) = stem +:+ ".jpg" ->
  replace_jpg stem = stem ->
  idx_list (st_self st) !! i = Some (replace_jpg (relpath ext f (img_dir (st_self st)))) ->
  replace_jpg (relpath ext f (img_dir (st_self st))) = stem /\
  stem ∈ scan_idx_list ext (img_dir (st_self st)) /\
  exists rest,
    (__getitem__ ext (Z.of_nat i) st).2
    = EvOpen (path_join (img_dir (st_self st)) (relpath ext f (img_dir (st_self st))))
        :: rest.
Proof.
  intros Hsz Hf Hrel Hstem Hi. unfold sized in Hsz.
  assert (Hid : replace_jpg (relpath ext f (img_dir (st_self st))) = stem)
    by now rewrite Hrel, replace_jpg_stem.
  split; [exact Hid|]. split.
  { unfold scan_idx_list. rewrite map_fmap. apply list_elem_of_fmap.
    exists f. split; [now rewrite Hid | exact Hf]. }
  pose proof (lookup_lt_Some _ _ _ Hi) as Hlt.
  rewrite getitem_paths, wrap_index_below by lia.
  destruct (py_list_getitem_in_range (idx_list (st_self st)) (Z.of_nat i))
    as (x & -> & Hx); [lia|].
  rewrite Nat2Z.id, Hi in Hx. injection Hx as <-. rewrite Hid, <- Hrel.
  destruct (Image_open ext _) as [raw|]; [|eexists; reflexivity].
  destruct (is_label (st_self st)); [|eexists; reflexivity].
  destruct (Image_open ext _) as [rawm|]; [|eexists; reflexivity].
  destruct (_ && _); [|eexists; reflexivity].
  destruct (aug_t (st_self st)) as [t|]; eexists; reflexivity.
Qed.

(** ** Sizes of the split *)

Lemma train_val_split_parts (l tr va : list string) :
  train_val_split l = Return (tr, va) ->
  exists b, tr = take b l /\ va = drop b l.
Proof.
  unfold train_val_split. destruct (split_border _) as [b|e]; [|discriminate].
  cbn. intros [= <- <-]. now exists (Z.to_nat b).
Qed.

(** Below 2^50 identifiers the train split has floor(0.8 N) elements and the
    val split the other N - floor(0.8 N); the val split of a non-empty list
    is never empty, and the train split is empty exactly for N <= 1. *)
Theorem split_sizes (l tr va : list string) :
  Z.of_nat (length l) < 2 ^ 50 ->
  train_val_split l = Return (tr, va) ->
  Z.of_nat (length tr) = 4 * Z.of_nat (length l) / 5 /\
  Z.of_nat (length va) = Z.of_nat (length l) - 4 * Z.of_nat (length l) / 5 /\
  (l <> [] -> va <> []) /\
  (tr = [] <-> (length l <= 1)%nat).
Proof.
  intros Hn Hs. rewrite train_val_split_exact in Hs by assumption.
  injection Hs as <- <-.
  pose proof (floor_0_8_le (length l)) as Hle.
  assert (Hb : Z.of_nat (floor_0_8 (length l)) = 4 * Z.of_nat (length l) / 5).
  { unfold floor_0_8. rewrite Z2Nat.id; [reflexivity|]. apply Z.div_pos; lia. }
  rewrite length_take, length_drop.
  assert (Hdiv : 4 * Z.of_nat (length l) / 5 * 5 <= 4 * Z.of_nat (length l)
                 < (4 * Z.of_nat (length l) / 5 + 1) * 5).
  { pose proof (Z.div_mod (4 * Z.of_nat (length l)) 5 ltac:(lia)).
    pose proof (Z.mod_pos_bound (4 * Z.of_nat (length l)) 5 ltac:(lia)). lia. }
  split; [lia|]. split; [lia|]. split.
  - intros Hne Hnil. apply (f_equal length) in Hnil.
    rewrite length_drop in Hnil. cbn in Hnil.
    destruct l; [now elim Hne | cbn in *; lia].
  - split.
    + intros Hnil. apply (f_equal length) in Hnil.
      rewrite length_take in Hnil. cbn in Hnil. lia.
    + intros Hsmall. apply length_zero_iff_nil. rewrite length_take. lia.
Qed.

(** With a single labeled image the train phase is empty: the constructor
    succeeds, but every call with [idx >= 0] raises ZeroDivisionError, while
    the val phase holds that image. *)
Theorem single_image_train_is_empty ext args0 dataroot ut ld ls uls aug0 res :
  length (scan_idx_list ext (labeled_img_dir dataroot)) = 1%nat ->
  (exists ds,
     __init__ ext args0 dataroot ut ld true "train" ls uls aug0 res = Return ds /\
     idx_list ds = [] /\
     forall g idx, 0 <= idx ->
       __getitem__ ext idx {| st_self := ds; st_rng := g |}
       = (Raise ZeroDivisionError, {| st_self := ds; st_rng := g |}, [])) /\
  (exists ds,
     __init__ ext args0 dataroot ut ld true "val" ls uls aug0 res = Return ds /\
     idx_list ds = scan_idx_list ext (labeled_img_dir dataroot)).
Proof.
  intros Hone.
  assert (Hs : train_val_split (scan_idx_list ext (labeled_img_dir dataroot))
               = Return ([], scan_idx_list ext (labeled_img_dir dataroot))).
  { rewrite train_val_split_exact by (rewrite Hone; reflexivity). now rewrite Hone. }
  split.
  - eexists. rewrite (init_labeled _ _ _ _ _ _ _ _ _ _ _ _ Hs).
    split; [reflexivity|]. split; [reflexivity|].
    intros g idx Hi.
    match goal with
    | |- __getitem__ ext idx ?st = _ =>
        exact (getitem_zero_size ext st idx eq_refl Hi)
    end.
  - eexists. rewrite (init_labeled _ _ _ _ _ _ _ _ _ _ _ _ Hs).
    split; reflexivity.
Qed.

(** ** What the constructor establishes *)

(** Every object the constructor returns has [data_size] equal to the
    length of its list, the eight-entry colour map, the pipeline exactly when
    [aug] is set, its directories under its data root, only identifiers of
    the scan of its image directory, and, in labeled mode, a recognized
    phase. *)
Theorem init_invariants ext args0 dataroot ut ld is_label0 phase0 ls uls aug0 res ds :
  __init__ ext args0 dataroot ut ld is_label0 phase0 ls uls aug0 res = Return ds ->
  sized ds /\
  color_map ds = the_color_map /\ size (color_map ds) = 8%nat /\
  aug_t ds = (if aug ds then Some the_aug_pipeline else None) /\
  data_root ds = path_join dataroot (if is_label ds then "label_data" else "unlabel_data") /\
  img_dir ds = path_join (data_root ds) "image" /\
  label_dir ds = path_join (data_root ds) "label" /\
  (forall img_idx, img_idx ∈ idx_list ds -> img_idx ∈ scan_idx_list ext (img_dir ds)) /\
  (is_label ds = true -> recognized (phase ds)) /\
  is_label ds = is_label0 /\ phase ds = phase0 /\ aug ds = aug0 /\
  args ds = args0 /\ resolution ds = res /\ unlabel_transform ds = ut.
Proof.
  destruct is_label0.
  - destruct (train_val_split (scan_idx_list ext (labeled_img_dir dataroot)))
      as [[tr va]|e] eqn:Hs.
    + rewrite (init_labeled _ _ _ _ _ _ _ _ _ _ _ _ Hs).
      destruct (train_val_split_parts _ _ _ Hs) as (b & -> & ->).
      pose proof (recognized_dec phase0) as Hrec.
      destruct (String.eqb phase0 "train" || String.eqb phase0 "val"
                || String.eqb phase0 "train-val") eqn:Hp; [|discriminate].
      intros [= <-]. cbn. unfold sized. cbn.
      repeat split; try reflexivity; try (now apply Hrec).
      intros img_idx Hin. fold (labeled_img_dir dataroot).
      destruct (String.eqb phase0 "train"); [eapply subseteq_take, Hin|].
      destruct (String.eqb phase0 "val"); [eapply subseteq_drop, Hin | exact Hin].
    + unfold __init__. fold (labeled_img_dir dataroot). rewrite Hs. discriminate.
  - rewrite init_unlabeled. intros [= <-]. cbn. unfold sized. cbn.
    repeat split; try reflexivity; try discriminate. intros img_idx Hin. exact Hin.
Qed.

(** ** The normalizer [preprocess] *)

Lemma normalized_byte_range (v : Z) :
  0 <= v <= 255 -> in_unit_range (normalized_byte v).
Proof.
  intros Hv.
  assert (Hall : forallb (fun n => SFleb f32_minus_one (normalized_byte (Z.of_nat n))
                                   && SFleb (normalized_byte (Z.of_nat n)) f32_one)
                         (seq 0 256) = true) by (vm_compute; reflexivity).
  rewrite forallb_forall in Hall.
  specialize (Hall (Z.to_nat v)). rewrite Z2Nat.id in Hall by lia.
  apply andb_true_iff, Hall, in_seq. lia.
Qed.

Lemma preprocess_channels ext (img : pil ext) :
  preprocess ext img
  = map (fun c => map (map (fun pixel : list Z => normalized_byte (default 0 (pixel !! c))))
                      (np_array_rgb ext img))
        [0; 1; 2]%nat.
Proof.
  unfold preprocess, Normalize, ToTensor.
  cbn [seq map zip_with fst snd].
  repeat f_equal; rewrite map_map; apply map_ext; intros row; apply map_map.
Qed.

(** The image tensor has three channels of the image's height and width,
    channel [c] at (y, x) is the normalized byte [c] of pixel (y, x), and for
    8-bit pixels every value lies in [-1, 1], with byte 0 sent to -1.0 and
    byte 255 to 1.0. *)
Theorem preprocess_range ext (img : pil ext) (H W : nat) :
  has_shape H W (np_array_rgb ext img) ->
  Forall (Forall (Forall (fun v => 0 <= v <= 255))) (np_array_rgb ext img) ->
  length (preprocess ext img) = 3%nat /\
  Forall (has_shape H W) (preprocess ext img) /\
  Forall (Forall (Forall in_unit_range)) (preprocess ext img) /\
  (forall c y x pixel v,
     (c < 3)%nat -> at2 (np_array_rgb ext img) y x = Some pixel -> pixel !! c = Some v ->
     at3 (preprocess ext img) c y x = Some (normalized_byte v)) /\
  normalized_byte 0 = f32_minus_one /\ normalized_byte 255 = f32_one.
Proof.
  intros [Hh Hw] Hbytes. rewrite preprocess_channels.
  split; [reflexivity|]. split; [|split; [|split]].
  - rewrite map_fmap. apply Forall_fmap, Forall_forall. intros c _. split; cbn.
    + now rewrite length_map.
    + rewrite map_fmap. apply Forall_fmap. eapply Forall_impl; [exact Hw|].
      intros row Hr. cbn. now rewrite length_map.
  - rewrite map_fmap. apply Forall_fmap, Forall_forall. intros c _. cbn.
    rewrite map_fmap. apply Forall_fmap. eapply Forall_impl; [exact Hbytes|].
    intros row Hr. cbn. rewrite map_fmap. apply Forall_fmap.
    eapply Forall_impl; [exact Hr|]. intros pixel Hp. cbn.
    apply normalized_byte_range.
    destruct (pixel !! c) as [v|] eqn:Hv; cbn; [|lia].
    eapply Forall_lookup_1 in Hp; [exact Hp | exact Hv].
  - intros c y x pixel v Hc Hpix Hv. unfold at3.
    rewrite map_fmap, list_lookup_fmap.
    assert (Hc3 : [0; 1; 2]%nat !! c = Some c)
      by (destruct c as [|[|[|c]]]; [reflexivity.. | lia]).
    rewrite Hc3. cbn. rewrite at2_map, Hpix. cbn. now rewrite Hv.
  - split; vm_compute; reflexivity.
Qed.

(** A replication factor does not make an empty dataset usable: [__len__]
    reports [batch * n_gpu] samples, yet every call with an index in that
    range raises ZeroDivisionError. *)
Theorem padded_empty_dataset ext (st : state ext) (batch n_gpu idx : Z) :
  data_size (st_self st) = 0 ->
  args (st_self st) !! "batch"%string = Some batch ->
  args (st_self st) !! "n_gpu"%string = Some n_gpu ->
  0 <= idx < batch * n_gpu ->
  __len__ ext (st_self st) = Return (batch * n_gpu) /\
  __getitem__ ext idx st = (Raise ZeroDivisionError, st, []).
Proof.
  intros Hz Hb Hg Hi. split.
  - unfold __len__, hasattr_args, getattr_args. rewrite Hb, Hg.
    rewrite bool_decide_eq_true_2 by eauto. cbn. f_equal. lia.
  - rewrite getitem_paths, wrap_index_zero_size by lia. reflexivity.
Qed.

(** The returned dict: in labeled mode the keys 'image' and 'mask', in that
    order, the mask having eight channels and no value other than -1.0 and
    1.0; in unlabeled mode the single key 'image'. *)
Theorem sample_contract ext (st : state ext) (idx : Z) d st' evs :
  color_map (st_self st) = the_color_map ->
  __getitem__ ext idx st = (Return d, st', evs) ->
  if is_label (st_self st) then
    exists img_tensor mask_tensor,
      d = [("image"%string, img_tensor); ("mask"%string, mask_tensor)] /\
      length mask_tensor = 8%nat /\
      Forall (Forall (Forall is_pm1)) mask_tensor
  else
    exists img_tensor, d = [("image"%string, img_tensor)].
Proof.
  intros Hcm. rewrite getitem_paths.
  destruct (wrap_index ext (st_self st) idx) as [i|e]; [|discriminate].
  destruct (py_list_getitem (idx_list (st_self st)) i) as [img_idx|e]; [|discriminate].
  destruct (Image_open ext (path_join (img_dir (st_self st)) (img_idx +:+ ".jpg")))
    as [raw|]; [|discriminate].
  destruct (is_label (st_self st)); [|intros [= <- _ _]; eauto].
  destruct (Image_open ext (path_join (label_dir (st_self st)) (img_idx +:+ ".png")))
    as [rawm|]; [|discriminate].
  destruct (_ && _).
  - destruct (aug_t (st_self st)) as [t|]; [|discriminate]. cbn.
    match goal with
    | |- context [encode_mask ext ?s ?m] =>
        destruct (encode_mask_run ext s m) as (labels & Hlen & Hb & ->)
    end.
    destruct (rescaled_bits labels Hb) as [Hlen' Hpm].
    intros [= <- _ _]. eexists _, _. split; [reflexivity|].
    rewrite Hlen', Hlen, Hcm. split; [apply the_color_map_size | exact Hpm].
  - cbn.
    match goal with
    | |- context [encode_mask ext ?s ?m] =>
        destruct (encode_mask_run ext s m) as (labels & Hlen & Hb & ->)
    end.
    destruct (rescaled_bits labels Hb) as [Hlen' Hpm].
    intros [= <- _ _]. eexists _, _. split; [reflexivity|].
    rewrite Hlen', Hlen, Hcm. split; [apply the_color_map_size | exact Hpm].
Qed.

(** ** The further properties on the small concrete worlds *)

Lemma len_at_least_size_witness :
  __len__ empty_ext empty_padded = Return 8 /\ data_size empty_padded <= 8.
Proof.
  assert (H : __len__ empty_ext empty_padded = Return 8) by (vm_compute; reflexivity).
  split; [exact H|].
  exact (proj1 (len_at_least_size empty_ext empty_padded 8 H)).
Defined.


Lemma getitem_periodic_witness :
  (0 < data_size toy_train /\ 0 <= 1 /\ 0 <= 2) /\
  __getitem__ toy_ext (1 + 2 * 4) (toy_state toy_train)
  = __getitem__ toy_ext 1 (toy_state toy_train).
Proof.
  assert (H1 : 0 < data_size (st_self (toy_state toy_train))) by (cbn; lia).
  assert (H2 : 0 <= 1) by lia.
  assert (H3 : 0 <= 2) by lia.
  split; [auto|].
  exact (getitem_periodic toy_ext (toy_state toy_train) 1 2 H1 H2 H3).
Defined.

Lemma getitem_negative_index_witness :
  (sized toy_train /\ -1 < 0) /\
  __getitem__ toy_ext (-1) (toy_state toy_train)
  = __getitem__ toy_ext (-1 + 4) (toy_state toy_train).
Proof.
  assert (H1 : sized (st_self (toy_state toy_train))) by reflexivity.
  assert (H2 : -1 < 0) by lia.
  split; [auto|].
  apply (proj1 (getitem_negative_index toy_ext (toy_state toy_train) (-1) H1 H2)).
  cbn. lia.
Defined.

Lemma encode_mask_pointwise_witness :
  (color_map toy_train = the_color_map /\ has_shape 2 2 toy_mask) /\
  exists mask_tensor,
    encode_mask toy_ext toy_train toy_mask = Return mask_tensor /\
    at3 mask_tensor 7 1 1 = Some f32_one.
Proof.
  assert (H1 : color_map toy_train = the_color_map) by reflexivity.
  assert (H2 : has_shape 2 2 toy_mask) by (split; [reflexivity | repeat constructor]).
  split; [auto|].
  destruct (encode_mask_pointwise toy_ext toy_train toy_mask 2 2 H1 H2)
    as (mask_tensor & He & _ & _ & Hpix).
  exists mask_tensor. split; [exact He|].
  apply (Hpix 7%nat 1%nat 1%nat 7); [lia | reflexivity].
Defined.

Lemma getitem_state_change_witness :
  exists r st' evs,
    unlabel_transform toy_unlabeled = None /\
    __getitem__ toy_ext 0 (toy_state toy_unlabeled) = (r, st', evs) /\
    st_self st'
    = set_unlabel_transform toy_ext toy_unlabeled (unlabel_transform (st_self st')).
Proof.
  assert (H0 : is_label (st_self (toy_state toy_unlabeled)) = true \/
               unlabel_transform (st_self (toy_state toy_unlabeled)) = None \/
               unlabel_transform (st_self (toy_state toy_unlabeled))
               = Some (preprocess toy_ext)) by (right; left; reflexivity).
  destruct (__getitem__ toy_ext 0 (toy_state toy_unlabeled)) as [[r st'] evs] eqn:H.
  exists r, st', evs. split; [reflexivity|]. split; [reflexivity|].
  exact (proj1 (getitem_state_change toy_ext (toy_state toy_unlabeled) 0 r st' evs H0 H)).
Defined.

Lemma default_transform_is_preprocess_witness :
  (is_label toy_unlabeled = false /\ unlabel_transform toy_unlabeled = None) /\
  (__getitem__ toy_ext 1 {| st_self := toy_unlabeled; st_rng := 0 |}).1.1
  = (__getitem__ toy_ext 1
       {| st_self := set_unlabel_transform toy_ext toy_unlabeled
                       (Some (preprocess toy_ext));
          st_rng := 0 |}).1.1.
Proof.
  assert (H1 : is_label toy_unlabeled = false) by reflexivity.
  assert (H2 : unlabel_transform toy_unlabeled = None) by reflexivity.
  split; [auto|].
  exact (proj1 (default_transform_is_preprocess toy_ext toy_unlabeled 0 1 H1 H2)).
Defined.

Lemma getitem_fails_before_files_iff_witness :
  sized toy_train /\
  __getitem__ toy_ext (-9) (toy_state toy_train)
  = (Raise IndexError, toy_state toy_train, []).
Proof.
  assert (H1 : sized (st_self (toy_state toy_train))) by reflexivity.
  split; [exact H1|].
  apply (proj1 (proj2 (proj2
           (getitem_fails_before_files_iff toy_ext (toy_state toy_train) (-9) H1)))).
  cbn. lia.
Defined.

Lemma augmented_sample_is_paired_witness :
  exists d st' evs,
    augments toy_train /\
    __getitem__ toy_ext 1 (toy_state toy_train) = (Return d, st', evs) /\
    exists img_idx, img_idx ∈ idx_list toy_train.
Proof.
  assert (H1 : augments (st_self (toy_state toy_train))).
  { split; [reflexivity|]. split; [now left | reflexivity]. }
  eexists _, _, _. split; [exact H1|].
  assert (H2 : __getitem__ toy_ext 1 (toy_state toy_train) = (Return _, _, _))
    by (vm_compute; reflexivity).
  split; [exact H2|].
  destruct (augmented_sample_is_paired toy_ext (toy_state toy_train) 1 _ _ _ H1 H2)
    as (img_idx & _ & _ & _ & _ & _ & _ & _ & Hin & _).
  exists img_idx. exact Hin.
Defined.

Lemma identifier_names_its_file_witness :
  (sized toy_train /\
   "data/label_data/image/3.jpg"%string
     ∈ glob toy_ext (path_join (path_join (img_dir toy_train) "**") "*.jpg") /\
   relpath toy_ext "data/label_data/image/3.jpg" (img_dir toy_train)
   = ("3" +:+ ".jpg")%string /\
   replace_jpg "3" = "3"%string /\
   idx_list toy_train !! 3%nat
   = Some (replace_jpg (relpath toy_ext "data/label_data/image/3.jpg"
                                (img_dir toy_train)))) /\
  exists rest,
    (__getitem__ toy_ext 3 (toy_state toy_train)).2
    = EvOpen "data/label_data/image/3.jpg" :: rest.
Proof.
  assert (H0 : sized (st_self (toy_state toy_train))) by reflexivity.
  assert (H1 : "data/label_data/image/3.jpg"%string
                 ∈ glob toy_ext
                     (path_join (path_join (img_dir (st_self (toy_state toy_train))) "**")
                                "*.jpg")).
  { apply (bool_decide_unpack _). vm_compute. exact I. }
  assert (H2 : relpath toy_ext "data/label_data/image/3.jpg"
                 (img_dir (st_self (toy_state toy_train)))
               = ("3" +:+ ".jpg")%string) by (vm_compute; reflexivity).
  assert (H3 : replace_jpg "3" = "3"%string) by reflexivity.
  assert (H4 : idx_list (st_self (toy_state toy_train)) !! 3%nat
               = Some (replace_jpg (relpath toy_ext "data/label_data/image/3.jpg"
                                            (img_dir (st_self (toy_state toy_train))))))
    by (vm_compute; reflexivity).
  split; [auto|].
  exact (proj2 (proj2 (identifier_names_its_file toy_ext (toy_state toy_train) 3
                         "data/label_data/image/3.jpg" "3" H0 H1 H2 H3 H4))).
Defined.

Lemma split_sizes_witness :
  (Z.of_nat (length ["0"; "1"; "2"; "3"; "4"]%string) < 2 ^ 50 /\
   train_val_split ["0"; "1"; "2"; "3"; "4"]%string
   = Return (["0"; "1"; "2"; "3"]%string, ["4"]%string)) /\
  Z.of_nat (length ["0"; "1"; "2"; "3"]%string)
  = 4 * Z.of_nat (length ["0"; "1"; "2"; "3"; "4"]%string) / 5.
Proof.
  assert (H1 : Z.of_nat (length ["0"; "1"; "2"; "3"; "4"]%string) < 2 ^ 50)
    by (vm_compute; reflexivity).
  assert (H2 : train_val_split ["0"; "1"; "2"; "3"; "4"]%string
               = Return (["0"; "1"; "2"; "3"]%string, ["4"]%string))
    by (vm_compute; reflexivity).
  split; [auto|].
  exact (proj1 (split_sizes _ _ _ H1 H2)).
Defined.

Lemma single_image_train_is_empty_witness :
  length (scan_idx_list one_ext (labeled_img_dir "data")) = 1%nat /\
  exists ds,
    __init__ one_ext ∅ "data" None None true "train" None None false 256 = Return ds /\
    idx_list ds = [].
Proof.
  assert (H : length (scan_idx_list one_ext (labeled_img_dir "data")) = 1%nat)
    by (vm_compute; reflexivity).
  split; [exact H|].
  destruct (proj1 (single_image_train_is_empty one_ext ∅ "data" None None None None
                     false 256 H)) as (ds & Hi & Hl & _).
  exists ds. split; assumption.
Defined.

Lemma init_invariants_witness :
  toy_dataset true "train" true = Return toy_train /\ sized toy_train.
Proof.
  assert (H : __init__ toy_ext ∅ "data" None None true "train" None None true 256
              = Return toy_train) by (vm_compute; reflexivity).
  split; [exact H|].
  exact (proj1 (init_invariants toy_ext ∅ "data" None None true "train" None None
                  true 256 toy_train H)).
Defined.

Lemma preprocess_range_witness :
  (has_shape 2 2 (np_array_rgb toy_ext (toy_rgb, toy_mask)) /\
   Forall (Forall (Forall (fun v => 0 <= v <= 255)))
          (np_array_rgb toy_ext (toy_rgb, toy_mask))) /\
  Forall (Forall (Forall in_unit_range)) (preprocess toy_ext (toy_rgb, toy_mask)).
Proof.
  assert (H1 : has_shape 2 2 (np_array_rgb toy_ext (toy_rgb, toy_mask)))
    by (split; [reflexivity | repeat constructor]).
  assert (H2 : Forall (Forall (Forall (fun v => 0 <= v <= 255)))
                      (np_array_rgb toy_ext (toy_rgb, toy_mask)))
    by (repeat constructor; lia).
  split; [auto|].
  exact (proj1 (proj2 (proj2 (preprocess_range toy_ext (toy_rgb, toy_mask) 2 2 H1 H2)))).
Defined.

Lemma padded_empty_dataset_witness :
  (data_size empty_padded = 0 /\
   args empty_padded !! "batch"%string = Some 4 /\
   args empty_padded !! "n_gpu"%string = Some 2 /\ 0 <= 5 < 4 * 2) /\
  __len__ empty_ext empty_padded = Return (4 * 2).
Proof.
  assert (H1 : data_size (st_self {| st_self := empty_padded; st_rng := 0 |}) = 0)
    by reflexivity.
  assert (H2 : args (st_self {| st_self := empty_padded; st_rng := 0 |})
                 !! "batch"%string = Some 4) by (vm_compute; reflexivity).
  assert (H3 : args (st_self {| st_self := empty_padded; st_rng := 0 |})
                 !! "n_gpu"%string = Some 2) by (vm_compute; reflexivity).
  assert (H4 : 0 <= 5 < 4 * 2) by lia.
  split; [auto|].
  exact (proj1 (padded_empty_dataset empty_ext
                  {| st_self := empty_padded; st_rng := 0 |} 4 2 5 H1 H2 H3 H4)).
Defined.

Lemma sample_contract_witness :
  exists d st' evs,
    color_map toy_val = the_color_map /\
    __getitem__ toy_ext 0 (toy_state toy_val) = (Return d, st', evs) /\
    exists img_tensor mask_tensor,
      d = [("image"%string, img_tensor); ("mask"%string, mask_tensor)] /\
      length mask_tensor = 8%nat.
Proof.
  assert (H1 : color_map (st_self (toy_state toy_val)) = the_color_map) by reflexivity.
  eexists _, _, _. split; [exact H1|].
  assert (H2 : __getitem__ toy_ext 0 (toy_state toy_val) = (Return _, _, _))
    by (vm_compute; reflexivity).
  split; [exact H2|].
  destruct (sample_contract toy_ext (toy_state toy_val) 0 _ _ _ H1 H2)
    as (img_tensor & mask_tensor & Hd & Hlen & _).
  exists img_tensor, mask_tensor. split; assumption.
Defined.
